(** * Olist e-commerce data preparation: [src/data_cleaning.py]

    A shallow embedding of the cleaning module and of the part of pandas it
    calls.  The Python functions keep their names ([load_datasets],
    [convert_dates], [extract_date_features], [handle_missing_values],
    [merge_order_data], [calculate_delivery_time]); what they call in pandas
    is modelled in the first half of the file:

    - a column is a typed array ([values]), one constructor per dtype that
      [read_csv], [to_datetime] and the derived columns produce: [object],
      [float64], [int64], [bool] and [datetime64[ns]];
    - a [float64] cell is an IEEE binary64 number (the kernel's primitive
      floats): the missing marker of such a column is NaN, as in pandas;
    - a timestamp is a count of nanoseconds since 1970-01-01T00:00 within the
      int64 range, [None] standing for [NaT]; it carries no time zone
      (columns of dtype [datetime64[ns, tz]] are not modelled);
    - a frame is a row count and an ordered list of labelled columns.  Labels
      are taken to be distinct, which is what [read_csv] produces, and the row
      index is the default positional one;
    - [print] appends a line to the output of the call, and an exception ends
      the call ([Raise]) unless a handler catches it. *)

From Stdlib Require Import ZArith List String Ascii Bool Lia.
From Stdlib Require Import Floats DecimalString.
Import ListNotations.

Local Open Scope string_scope.
Local Open Scope Z_scope.

(** ** Python: exceptions, printed output *)

Inductive exn : Type :=
| FileNotFoundError (path : string)
| EmptyDataError
| ParserError
| KeyError (key : string)
| ValueError (msg : string)
| TypeError (msg : string)
| OverflowError
| OSError (msg : string).

Inductive outcome (A : Type) : Type :=
| Return (a : A)
| Raise (e : exn).
Arguments Return {A} a.
Arguments Raise {A} e.

(** A call prints some lines, then returns or raises. *)
Definition Py (A : Type) : Type := (list string * outcome A)%type.

Definition ret {A} (a : A) : Py A := ([], Return a).

Definition raise {A} (e : exn) : Py A := ([], Raise e).

Definition print (line : string) : Py unit := ([line], Return tt).

Definition bind {A B} (m : Py A) (k : A -> Py B) : Py B :=
  match m with
  | (out, Return a) => let (out', r) := k a in ((out ++ out')%list, r)
  | (out, Raise e) => (out, Raise e)
  end.

(** [try: m except ...: handler]; the handler says which exceptions it
    catches. *)
Definition try_except {A} (m : Py A) (handler : exn -> option (Py A)) : Py A :=
  match m with
  | (out, Return a) => (out, Return a)
  | (out, Raise e) =>
      match handler e with
      | Some h => let (out', r) := h in ((out ++ out')%list, r)
      | None => (out, Raise e)
      end
  end.

Declare Scope py_scope.
Delimit Scope py_scope with py.
Notation "x <- m ;; k" := (bind m (fun x => k))
  (at level 61, m at next level, right associativity) : py_scope.
Notation "m ;;; k" := (bind m (fun _ => k))
  (at level 61, right associativity) : py_scope.

Fixpoint for_each {A} (xs : list A) (body : A -> Py unit) : Py unit :=
  match xs with
  | [] => ret tt
  | x :: rest => bind (body x) (fun _ => for_each rest body)
  end.

(** [str(n)] of a non-negative integer. *)
Definition str_nat (n : nat) : string := NilEmpty.string_of_uint (Nat.to_uint n).

(** ** binary64 *)

(** The conversion of an integer to the nearest double. *)
Definition float_of_Z (z : Z) : float :=
  SF2Prim (binary_normalize prec emax z 0 false).

(** The integer part of a finite double (truncation towards zero). *)
Definition Z_of_float (x : float) : option Z :=
  match Prim2SF x with
  | S754_zero _ => Some 0
  | S754_finite s m e =>
      let v := Z.shiftl (Z.pos m) e in Some (if s then - v else v)
  | S754_infinity _ | S754_nan => None
  end.

(** ** Calendar arithmetic on nanosecond timestamps *)

Definition ns_per_second : Z := 1000000000.
Definition ns_per_day : Z := 86400 * ns_per_second.

(** Valid [Timestamp] values: int64 without its least value, which is NaT. *)
Definition in_bounds (t : Z) : bool := (- 2 ^ 63 <? t) && (t <? 2 ^ 63).

Definition coerce_ns (t : Z) : option Z := if in_bounds t then Some t else None.

(** Day number (days since 1970-01-01) of a timestamp. *)
Definition days_of (t : Z) : Z := t / ns_per_day.

(** Proleptic Gregorian date of a day number. *)
Definition civil_from_days (z : Z) : Z * Z * Z :=
  let z := z + 719468 in
  let era := z / 146097 in
  let doe := z - era * 146097 in
  let yoe := (doe - doe / 1460 + doe / 36524 - doe / 146096) / 365 in
  let doy := doe - (365 * yoe + yoe / 4 - yoe / 100) in
  let mp := (5 * doy + 2) / 153 in
  let d := doy - (153 * mp + 2) / 5 + 1 in
  let m := if mp <? 10 then mp + 3 else mp - 9 in
  let y := yoe + era * 400 + (if m <=? 2 then 1 else 0) in
  (y, m, d).

(** Day number of a proleptic Gregorian date. *)
Definition days_from_civil (y m d : Z) : Z :=
  let y := if m <=? 2 then y - 1 else y in
  let era := y / 400 in
  let yoe := y - era * 400 in
  let doy := (153 * (if 2 <? m then m - 3 else m + 9) + 2) / 5 + d - 1 in
  let doe := yoe * 365 + yoe / 4 - yoe / 100 + doy in
  era * 146097 + doe - 719468.

Definition year_of (t : Z) : Z := fst (fst (civil_from_days (days_of t))).
Definition month_of (t : Z) : Z := snd (fst (civil_from_days (days_of t))).
Definition day_of (t : Z) : Z := snd (civil_from_days (days_of t)).

(** Monday = 0 ... Sunday = 6; 1970-01-01 was a Thursday. *)
Definition dayofweek_of (t : Z) : Z := (days_of t + 3) mod 7.

Definition quarter_of (t : Z) : Z := (month_of t - 1) / 3 + 1.

(** ** pandas: columns *)

(** What an [object] column holds besides the missing marker. *)
Inductive obj : Type :=
| OStr (s : string)
| OInt (n : Z)
| OBool (b : bool)
| OTime (t : Z).

(** A column's data, by dtype. *)
Inductive values : Type :=
| ObjectArr (xs : list (option obj))
| FloatArr (xs : list float)
| IntArr (xs : list Z)
| BoolArr (xs : list bool)
| DatetimeArr (xs : list (option Z)).

(** One cell of a column, with the dtype it came from. *)
Inductive cell : Type :=
| Obj (o : option obj)
| Flt (x : float)
| Int (n : Z)
| Bool (b : bool)
| Dt (t : option Z).

Definition cells (v : values) : list cell :=
  match v with
  | ObjectArr xs => map Obj xs
  | FloatArr xs => map Flt xs
  | IntArr xs => map Int xs
  | BoolArr xs => map Bool xs
  | DatetimeArr xs => map Dt xs
  end.

Definition len (v : values) : nat := List.length (cells v).

(** [pd.isna] of a cell: [None]/NaN in an object column, NaN in a float
    column, NaT in a datetime column; int and bool columns have no missing
    marker. *)
Definition cell_isna (c : cell) : bool :=
  match c with
  | Obj None => true
  | Flt x => is_nan x
  | Dt None => true
  | _ => false
  end.

Definition isna (v : values) : list bool := map cell_isna (cells v).

(** The cell at position [i]; past the end, the missing marker of the dtype
    (zero and [False] for the dtypes that have none). *)
Definition cell_at (v : values) (i : nat) : cell :=
  match v with
  | ObjectArr xs => Obj (nth i xs None)
  | FloatArr xs => Flt (nth i xs nan)
  | IntArr xs => Int (nth i xs 0)
  | BoolArr xs => Bool (nth i xs false)
  | DatetimeArr xs => Dt (nth i xs None)
  end.

(** [arr.take(idx)]: the cells at the positions [idx], in that order. *)
Definition take (idx : list nat) (v : values) : values :=
  match v with
  | ObjectArr xs => ObjectArr (map (fun i => nth i xs None) idx)
  | FloatArr xs => FloatArr (map (fun i => nth i xs nan) idx)
  | IntArr xs => IntArr (map (fun i => nth i xs 0) idx)
  | BoolArr xs => BoolArr (map (fun i => nth i xs false) idx)
  | DatetimeArr xs => DatetimeArr (map (fun i => nth i xs None) idx)
  end.

Definition is_some {A} (o : option A) : bool :=
  match o with Some _ => true | None => false end.

(** [take] with fill: a position [None] yields the missing marker.  When
    some position is to be filled, an int column is promoted to float and a
    bool column to object; a column with nothing to fill keeps its dtype. *)
Definition take_fill (idx : list (option nat)) (v : values) : values :=
  let at_ {A} (xs : list A) (na : A) (o : option nat) : A :=
    match o with Some i => nth i xs na | None => na end in
  match v with
  | ObjectArr xs => ObjectArr (map (at_ xs None) idx)
  | FloatArr xs => FloatArr (map (at_ xs nan) idx)
  | DatetimeArr xs => DatetimeArr (map (at_ xs None) idx)
  | IntArr xs =>
      if forallb is_some idx then IntArr (map (at_ xs 0) idx)
      else FloatArr (map (at_ (map float_of_Z xs) nan) idx)
  | BoolArr xs =>
      if forallb is_some idx then BoolArr (map (at_ xs false) idx)
      else ObjectArr (map (at_ (map (fun b => Some (OBool b)) xs) None) idx)
  end.

Definition is_datetime64_dtype (v : values) : bool :=
  match v with DatetimeArr _ => true | _ => false end.

(** [np.number] dtypes, as [select_dtypes(include=[np.number])] picks them. *)
Definition is_numeric_dtype (v : values) : bool :=
  match v with FloatArr _ | IntArr _ => true | _ => false end.

(** ** pandas: frames *)

Record DataFrame : Type := mkDataFrame {
  nrows : nat;
  columns : list (string * values)
}.

Definition column_names (df : DataFrame) : list string := map fst (columns df).

(** [col in df.columns] *)
Definition contains (df : DataFrame) (col : string) : bool :=
  existsb (String.eqb col) (column_names df).

Fixpoint lookup (col : string) (cols : list (string * values)) : option values :=
  match cols with
  | [] => None
  | (c, v) :: rest => if String.eqb col c then Some v else lookup col rest
  end.

(** [df[col]]; [None] is the [KeyError] of an absent label. *)
Definition getitem (df : DataFrame) (col : string) : option values :=
  lookup col (columns df).

Fixpoint assign (col : string) (v : values) (cols : list (string * values))
  : list (string * values) :=
  match cols with
  | [] => [(col, v)]
  | (c, w) :: rest =>
      if String.eqb col c then (c, v) :: rest else (c, w) :: assign col v rest
  end.

(** [df[col] = v]: replaces the column of that label where it stands, or
    appends a new last column. *)
Definition setitem (df : DataFrame) (col : string) (v : values) : DataFrame :=
  mkDataFrame (nrows df) (assign col v (columns df)).

(** Row [i] of a frame, one cell per column. *)
Definition row (df : DataFrame) (i : nat) : list cell :=
  map (fun c => cell_at (snd c) i) (columns df).

Definition rows (df : DataFrame) : list (list cell) :=
  map (row df) (seq 0 (nrows df)).

(** [df.take(idx)] on the row axis. *)
Definition take_rows (idx : list nat) (df : DataFrame) : DataFrame :=
  mkDataFrame (List.length idx) (map (fun c => (fst c, take idx (snd c))) (columns df)).

(** Every column has one cell per row. *)
Definition well_formed (df : DataFrame) : Prop :=
  Forall (fun c => len (snd c) = nrows df) (columns df).

(** ** pandas: missing values *)

(** [df.dropna()]: the rows without a missing cell, in order. *)
Definition dropna (df : DataFrame) : DataFrame :=
  let keep i := forallb (fun c => negb (cell_isna c)) (row df i) in
  take_rows (filter keep (seq 0 (nrows df))) df.

(** [s.fillna(value)] with a float [value]; only numeric columns get here,
    and an int column has nothing to fill. *)
Definition fillna (v : values) (value : float) : values :=
  match v with
  | FloatArr xs => FloatArr (map (fun x => if is_nan x then value else x) xs)
  | other => other
  end.

(** [df.fillna(0)] on one column.  An object column takes the integer as it
    is, a float column takes 0.0, and a datetime column that has a NaT to
    fill cannot hold an integer and becomes an object column. *)
Definition fillna_zero (v : values) : values :=
  match v with
  | ObjectArr xs =>
      ObjectArr (map (fun o => match o with None => Some (OInt 0) | _ => o end) xs)
  | FloatArr xs => FloatArr (map (fun x => if is_nan x then 0%float else x) xs)
  | DatetimeArr xs =>
      if forallb is_some xs then DatetimeArr xs
      else ObjectArr (map (fun o => match o with
                                    | None => Some (OInt 0)
                                    | Some t => Some (OTime t)
                                    end) xs)
  | other => other
  end.

Definition fillna_zero_frame (df : DataFrame) : DataFrame :=
  mkDataFrame (nrows df) (map (fun c => (fst c, fillna_zero (snd c))) (columns df)).

(** The non-missing numbers of a numeric column, as doubles. *)
Definition valid_floats (v : values) : list float :=
  match v with
  | FloatArr xs => filter (fun x => negb (is_nan x)) xs
  | IntArr xs => map float_of_Z xs
  | _ => []
  end.

Definition fsum (xs : list float) : float := fold_left PrimFloat.add xs 0%float.

(** [s.mean()], skipping missing values; NaN when there is none. *)
Definition mean (v : values) : float :=
  let xs := valid_floats v in
  (fsum xs / float_of_Z (Z.of_nat (List.length xs)))%float.

Fixpoint insert_sorted (x : float) (xs : list float) : list float :=
  match xs with
  | [] => [x]
  | y :: rest => if (x <=? y)%float then x :: xs else y :: insert_sorted x rest
  end.

Definition sort_floats (xs : list float) : list float :=
  fold_right insert_sorted [] xs.

(** [s.median()], skipping missing values; NaN when there is none. *)
Definition median (v : values) : float :=
  let xs := sort_floats (valid_floats v) in
  let n := List.length xs in
  match n with
  | O => nan
  | _ =>
      if Nat.even n
      then ((nth (n / 2 - 1)%nat xs nan + nth (n / 2)%nat xs nan) / 2)%float
      else nth (n / 2)%nat xs nan
  end.

(** [df.select_dtypes(include=[np.number]).columns] *)
Definition numeric_columns (df : DataFrame) : list string :=
  map fst (filter (fun c => is_numeric_dtype (snd c)) (columns df)).

(** ** pandas: datetime columns *)

(** [s.dt.<field>]: an int column, or a float column with NaN at the NaT
    rows when there is one. *)
Definition dt_field (f : Z -> Z) (ts : list (option Z)) : values :=
  if forallb is_some ts
  then IntArr (map (fun o => match o with Some t => f t | None => 0 end) ts)
  else FloatArr (map (fun o => match o with
                               | Some t => float_of_Z (f t)
                               | None => nan
                               end) ts).

(** [s.dt]; the accessor exists on datetime columns only. *)
Definition dt (df : DataFrame) (col : string) : list (option Z) :=
  match getitem df col with
  | Some (DatetimeArr ts) => ts
  | _ => []
  end.

(** [s.isin(ks)] for integers [ks]; NaN is in no list of numbers. *)
Definition isin (v : values) (ks : list Z) : list bool :=
  match v with
  | IntArr xs => map (fun n => existsb (Z.eqb n) ks) xs
  | FloatArr xs =>
      map (fun x => existsb (fun k => (x =? float_of_Z k)%float) ks) xs
  | other => map (fun _ => false) (cells other)
  end.

(** [s.astype(int)] of a boolean column. *)
Definition astype_int (bs : list bool) : values :=
  IntArr (map (fun b : bool => if b then 1 else 0) bs).

(** [a - b] for two datetime columns: a timedelta per row, NaT where either
    side is NaT; a difference outside int64 raises.  Rows pair up by
    position. *)
Fixpoint sub_datetimes (a b : list (option Z)) : outcome (list (option Z)) :=
  match a, b with
  | x :: a', y :: b' =>
      match x, y with
      | Some t, Some u =>
          if in_bounds (t - u)
          then match sub_datetimes a' b' with
               | Return r => Return (Some (t - u) :: r)
               | Raise e => Raise e
               end
          else Raise OverflowError
      | _, _ =>
          match sub_datetimes a' b' with
          | Return r => Return (None :: r)
          | Raise e => Raise e
          end
      end
  | _, _ => Return []
  end.

(** [td.dt.total_seconds()]: nanoseconds over 10^9 as a double, NaN at NaT. *)
Definition total_seconds (td : list (option Z)) : list float :=
  map (fun o => match o with
                | Some ns => (float_of_Z ns / float_of_Z ns_per_second)%float
                | None => nan
                end) td.

(** [s / k] for a float column and an integer [k]. *)
Definition div_scalar (xs : list float) (k : Z) : values :=
  FloatArr (map (fun x => (x / float_of_Z k)%float) xs).

Fixpoint map2 {A B C} (f : A -> B -> C) (xs : list A) (ys : list B) : list C :=
  match xs, ys with
  | x :: xs', y :: ys' => f x y :: map2 f xs' ys'
  | _, _ => []
  end.

(** [a - b] for two float columns. *)
Definition sub_floats (a b : values) : outcome values :=
  match a, b with
  | FloatArr xs, FloatArr ys => Return (FloatArr (map2 PrimFloat.sub xs ys))
  | _, _ => Raise (TypeError "unsupported operand")
  end.

(** [s <= k] for a float column and an integer [k]: a bool column, [False]
    at NaN. *)
Definition le_scalar (v : values) (k : Z) : outcome values :=
  match v with
  | FloatArr xs => Return (BoolArr (map (fun x => (x <=? float_of_Z k)%float) xs))
  | _ => Raise (TypeError "unsupported operand")
  end.

(** ** pandas: merge *)

Inductive how : Type := Inner | Left.

Definition obj_eqb (a b : obj) : bool :=
  match a, b with
  | OStr s, OStr t => String.eqb s t
  | OInt m, OInt n => m =? n
  | OBool x, OBool y => Bool.eqb x y
  | OTime s, OTime t => s =? t
  | _, _ => false
  end.

(** Equality of join keys.  Missing keys match each other. *)
Definition key_eqb (a b : cell) : bool :=
  match a, b with
  | Obj None, Obj None => true
  | Obj (Some x), Obj (Some y) => obj_eqb x y
  | Flt x, Flt y => (is_nan x && is_nan y) || (x =? y)%float
  | Int m, Int n => m =? n
  | Int m, Flt y => (float_of_Z m =? y)%float
  | Flt x, Int n => (x =? float_of_Z n)%float
  | Bool x, Bool y => Bool.eqb x y
  | Dt None, Dt None => true
  | Dt (Some s), Dt (Some t) => s =? t
  | _, _ => false
  end.

(** Key columns must be of one kind: the same dtype, or both numeric. *)
Definition compatible_keys (l r : values) : bool :=
  match l, r with
  | ObjectArr _, ObjectArr _ => true
  | BoolArr _, BoolArr _ => true
  | DatetimeArr _, DatetimeArr _ => true
  | (FloatArr _ | IntArr _), (FloatArr _ | IntArr _) => true
  | _, _ => false
  end.

(** The positions of the right keys equal to [k], in order. *)
Definition matches (k : cell) (rk : list cell) : list nat :=
  map fst (filter (fun jc => key_eqb k (snd jc))
             (combine (seq 0 (List.length rk)) rk)).

(** The row pairs of the join, in the order of the left rows.  A left row
    without a match is dropped by an inner join and kept once, with no right
    row, by a left join. *)
Definition join_positions (h : how) (lk rk : list cell) : list (nat * option nat) :=
  flat_map (fun ic : nat * cell =>
              match h, matches (snd ic) rk with
              | Left, [] => [(fst ic, None)]
              | _, js => map (fun j => (fst ic, Some j)) js
              end)
           (combine (seq 0 (List.length lk)) lk).

(** [pd.merge(left, right, on=on, how=h)].  The output has the columns of
    [left], then those of [right] but the key; a label other than the key
    that both sides have gets the suffixes [_x] and [_y]. *)
Definition merge (left right : DataFrame) (on : string) (h : how) : Py DataFrame :=
  match getitem left on, getitem right on with
  | Some lk, Some rk =>
      if compatible_keys lk rk then
        let pos := join_positions h (cells lk) (cells rk) in
        let shared c := negb (String.eqb c on) in
        let lcols :=
          map (fun c : string * values =>
                 ((if shared (fst c) && contains right (fst c)
                   then fst c ++ "_x" else fst c),
                  take (map fst pos) (snd c)))
              (columns left) in
        let rcols :=
          map (fun c : string * values =>
                 ((if contains left (fst c) then fst c ++ "_y" else fst c),
                  take_fill (map snd pos) (snd c)))
              (filter (fun c => shared (fst c)) (columns right)) in
        ret (mkDataFrame (List.length pos) (lcols ++ rcols))
      else raise (ValueError "You are trying to merge on columns of different kinds")
  | _, _ => raise (KeyError on)
  end.

(** ** A reader of ISO timestamps *)

(** The text reader that [to_datetime] relies on is a parameter of the
    embedding.  [parse_iso] is one such reader, for the format of the Olist
    files ([YYYY-MM-DD HH:MM:SS], or the date alone). *)

Definition digit (c : ascii) : option Z :=
  let n := Z.of_nat (nat_of_ascii c) - 48 in
  if (0 <=? n) && (n <=? 9) then Some n else None.

Fixpoint number (acc : Z) (s : string) : option Z :=
  match s with
  | EmptyString => Some acc
  | String c rest =>
      match digit c with
      | Some d => number (10 * acc + d) rest
      | None => None
      end
  end.

Definition field (s : string) (start width : nat) : option Z :=
  let f := substring start width s in
  if Nat.eqb (String.length f) width then number 0 f else None.

Definition sep (s : string) (at_ : nat) (c : string) : bool :=
  String.eqb (substring at_ 1 s) c.

Definition parse_date (s : string) : option Z :=
  match field s 0 4, field s 5 2, field s 8 2 with
  | Some y, Some m, Some d =>
      let n := days_from_civil y m d in
      let '(y', m', d') := civil_from_days n in
      if sep s 4 "-" && sep s 7 "-" && (y' =? y) && (m' =? m) && (d' =? d)
      then Some n else None
  | _, _, _ => None
  end.

Definition parse_time (s : string) : option Z :=
  match field s 11 2, field s 14 2, field s 17 2 with
  | Some h, Some mi, Some sec =>
      if (sep s 10 " " || sep s 10 "T") && sep s 13 ":" && sep s 16 ":"
         && (h <? 24) && (mi <? 60) && (sec <? 60)
      then Some ((h * 3600 + mi * 60 + sec) * ns_per_second) else None
  | _, _, _ => None
  end.

Definition parse_iso (s : string) : option Z :=
  match parse_date s with
  | Some n =>
      if Nat.eqb (String.length s) 10 then Some (n * ns_per_day)
      else if Nat.eqb (String.length s) 19 then
        match parse_time s with
        | Some ns => Some (n * ns_per_day + ns)
        | None => None
        end
      else None
  | None => None
  end.

(** ** The cleaning module *)

Section DataCleaning.

(** How pandas reads a timestamp out of a text cell ([None]: not a date). *)
Variable parse_datetime : string -> option Z.

(** The files on disk: the content at a path, [None] when there is no file. *)
Variable fs : string -> option string.

(** How pandas reads a table out of the text of a non-empty file. *)
Variable parse_csv : string -> outcome DataFrame.

Local Open Scope py_scope.

(** [pd.read_csv(path)] *)
Definition read_csv (path : string) : Py DataFrame :=
  match fs path with
  | None => raise (FileNotFoundError path)
  | Some EmptyString => raise EmptyDataError
  | Some text => ([], parse_csv text)
  end.

(** [str(e)] of the exception that [load_datasets] reports. *)
Definition str_exn (e : exn) : string :=
  match e with
  | FileNotFoundError path =>
      "[Errno 2] No such file or directory: '" ++ path ++ "'"
  | _ => EmptyString
  end.

(** [load_datasets] (lines 13-44).  The dictionary is built entry by entry,
    in the order written; the handler catches [FileNotFoundError] only. *)
Definition load_datasets (base_path : string)
  : Py (option (list (string * DataFrame))) :=
  try_except
    (orders <- read_csv (base_path ++ "olist_orders_dataset.csv") ;;
     order_items <- read_csv (base_path ++ "olist_order_items_dataset.csv") ;;
     products <- read_csv (base_path ++ "olist_products_dataset.csv") ;;
     customers <- read_csv (base_path ++ "olist_customers_dataset.csv") ;;
     sellers <- read_csv (base_path ++ "olist_sellers_dataset.csv") ;;
     let datasets := [("orders", orders); ("order_items", order_items);
                      ("products", products); ("customers", customers);
                      ("sellers", sellers)] in
     print "Datasets carregados com sucesso!" ;;;
     for_each datasets
       (fun nd => print (fst nd ++ ": " ++ str_nat (nrows (snd nd))
                         ++ " linhas, "
                         ++ str_nat (List.length (columns (snd nd)))
                         ++ " colunas")) ;;;
     ret (Some datasets))
    (fun e =>
       match e with
       | FileNotFoundError _ =>
           Some (print ("Erro ao carregar datasets: " ++ str_exn e) ;;;
                 ret None)
       | _ => None
       end).

(** [pd.to_datetime(s, errors='coerce')]: a datetime column comes back as
    it is; text is read by [parse_datetime]; numbers count nanoseconds;
    whatever does not make a timestamp in bounds becomes NaT.

    The timestamps of the embedding carry no time zone, as those of the
    Olist files.  Text that gives a UTC offset is outside it: pandas makes a
    column of another dtype of it ([datetime64[ns, tz]]), which
    [is_datetime64_dtype] does not accept, and no constructor of [values]
    stands for that dtype.  Text is read cell by cell; the one format that
    pandas settles on for a whole column, from its first text, and what that
    does to numbers that stand among text, is left to [parse_datetime] and
    not modelled further. *)
Definition to_datetime (v : values) : values :=
  match v with
  | DatetimeArr ts => DatetimeArr ts
  | ObjectArr xs =>
      DatetimeArr
        (map (fun o =>
                match o with
                | Some (OStr s) =>
                    match parse_datetime s with
                    | Some t => coerce_ns t
                    | None => None
                    end
                | Some (OInt n) => coerce_ns n
                | Some (OTime t) => Some t
                | Some (OBool _) | None => None
                end) xs)
  | IntArr xs => DatetimeArr (map coerce_ns xs)
  | FloatArr xs =>
      DatetimeArr
        (map (fun x => match Z_of_float x with
                       | Some n => coerce_ns n
                       | None => None
                       end) xs)
  | BoolArr xs => DatetimeArr (map (fun _ => None) xs)
  end.

(** The body of the loop of [convert_dates]. *)
Definition convert_dates_body (df_copy : DataFrame) (col : string) : DataFrame :=
  match getitem df_copy col with
  | Some v => setitem df_copy col (to_datetime v)
  | None => df_copy
  end.

(** [convert_dates] (lines 47-69). *)
Definition convert_dates (df : DataFrame) (date_columns : list string)
  : DataFrame :=
  let df_copy := df in
  fold_left convert_dates_body date_columns df_copy.

(** [extract_date_features] (lines 72-100).  Each assignment reads the date
    column again, as the source does. *)
Definition extract_date_features (df : DataFrame) (date_column : string)
  : Py DataFrame :=
  let df_copy := df in
  if match getitem df_copy date_column with
     | Some v => is_datetime64_dtype v
     | None => false
     end
  then
    let df_copy := setitem df_copy (date_column ++ "_year")
                     (dt_field year_of (dt df_copy date_column)) in
    let df_copy := setitem df_copy (date_column ++ "_month")
                     (dt_field month_of (dt df_copy date_column)) in
    let df_copy := setitem df_copy (date_column ++ "_day")
                     (dt_field day_of (dt df_copy date_column)) in
    let df_copy := setitem df_copy (date_column ++ "_dayofweek")
                     (dt_field dayofweek_of (dt df_copy date_column)) in
    let df_copy := setitem df_copy (date_column ++ "_quarter")
                     (dt_field quarter_of (dt df_copy date_column)) in
    let df_copy := setitem df_copy (date_column ++ "_is_weekend")
                     (astype_int
                        (isin (dt_field dayofweek_of (dt df_copy date_column))
                           [5; 6])) in
    ret df_copy
  else
    print ("Erro: " ++ date_column ++ " não é uma coluna datetime válida") ;;;
    ret df_copy.

(** [for col in names: df[col] = df[col].fillna(stat(df[col]))] *)
Definition fill_with (stat : values -> float) (names : list string)
  (df : DataFrame) : DataFrame :=
  fold_left
    (fun df_copy col =>
       match getitem df_copy col with
       | Some v => setitem df_copy col (fillna v (stat v))
       | None => df_copy
       end)
    names df.

(** [handle_missing_values] (lines 103-135). *)
Definition handle_missing_values (df : DataFrame) (strategy : string)
  : Py DataFrame :=
  let df_copy := df in
  if String.eqb strategy "drop" then
    ret (dropna df_copy)
  else if String.eqb strategy "fill_mean" then
    ret (fill_with mean (numeric_columns df_copy) df_copy)
  else if String.eqb strategy "fill_median" then
    ret (fill_with median (numeric_columns df_copy) df_copy)
  else if String.eqb strategy "fill_zero" then
    ret (fillna_zero_frame df_copy)
  else
    print ("Estratégia '" ++ strategy
           ++ "' não reconhecida. Usando 'drop' como padrão.") ;;;
    ret (dropna df_copy).

(** [merge_order_data] (lines 138-169); [None] is an optional table left
    out. *)
Definition merge_order_data (orders order_items : DataFrame)
  (products customers : option DataFrame) : Py DataFrame :=
  merged_data <- merge orders order_items "order_id" Inner ;;
  merged_data <- match products with
                 | Some products => merge merged_data products "product_id" Left
                 | None => ret merged_data
                 end ;;
  merged_data <- match customers with
                 | Some customers => merge merged_data customers "customer_id" Left
                 | None => ret merged_data
                 end ;;
  ret merged_data.

Definition date_cols : list string :=
  ["order_purchase_timestamp"; "order_delivered_customer_date";
   "order_estimated_delivery_date"].

(** The loop over [date_cols] of [calculate_delivery_time]: it returns from
    the function at the first absent column, and otherwise goes on to
    [rest], the statements after the loop. *)
Fixpoint check_date_cols (cols : list string) (df : DataFrame)
  (rest : DataFrame -> Py DataFrame) : Py DataFrame :=
  match cols with
  | [] => rest df
  | col :: cols' =>
      match getitem df col with
      | None =>
          print ("Coluna " ++ col ++ " não encontrada no DataFrame") ;;;
          ret df
      | Some v =>
          let df := if negb (is_datetime64_dtype v)
                    then setitem df col (to_datetime v)
                    else df in
          check_date_cols cols' df rest
      end
  end.

(** [df[a] - df[b]] for two datetime columns of [df]. *)
Definition timedelta (df : DataFrame) (a b : string) : Py (list (option Z)) :=
  match getitem df a, getitem df b with
  | Some (DatetimeArr xs), Some (DatetimeArr ys) => ([], sub_datetimes xs ys)
  | Some _, Some _ => raise (TypeError "unsupported operand")
  | None, _ => raise (KeyError a)
  | _, None => raise (KeyError b)
  end.

(** [calculate_delivery_time] (lines 172-209). *)
Definition calculate_delivery_time (orders : DataFrame) : Py DataFrame :=
  let df := orders in
  check_date_cols date_cols df (fun df =>
    td <- timedelta df "order_delivered_customer_date"
            "order_purchase_timestamp" ;;
    let df := setitem df "delivery_time_days"
                (div_scalar (total_seconds td) (24 * 3600)) in
    td <- timedelta df "order_estimated_delivery_date"
            "order_purchase_timestamp" ;;
    let df := setitem df "estimated_delivery_time_days"
                (div_scalar (total_seconds td) (24 * 3600)) in
    difference <- match getitem df "delivery_time_days",
                        getitem df "estimated_delivery_time_days" with
                  | Some a, Some b => ([], sub_floats a b)
                  | _, _ => raise (KeyError "delivery_time_days")
                  end ;;
    let df := setitem df "delivery_time_difference" difference in
    on_time <- match getitem df "delivery_time_difference" with
               | Some d => ([], le_scalar d 0)
               | None => raise (KeyError "delivery_time_difference")
               end ;;
    let df := setitem df "delivered_on_time" on_time in
    ret df).

End DataCleaning.


(** ** The pipeline and its side effects *)

(** What [prepare_data_for_analysis] does to the outside, in order: the
    lines it prints, the directory it makes, the tables it writes.  A written
    file is recorded by its path and the table given to [to_csv], once the
    write is complete; the text of the file is not modelled.  The disk may
    refuse: [os.makedirs] and [to_csv] then raise, and nothing in the
    pipeline catches it. *)
Inductive event : Type :=
| Printed (line : string)
| MadeDirs (path : string)
| WroteCsv (path : string) (table : DataFrame).

Definition IO (A : Type) : Type := (list event * outcome A)%type.

Definition io_ret {A} (a : A) : IO A := ([], Return a).

Definition io_bind {A B} (m : IO A) (k : A -> IO B) : IO B :=
  match m with
  | (evs, Return a) => let (evs', r) := k a in ((evs ++ evs')%list, r)
  | (evs, Raise e) => (evs, Raise e)
  end.

(** A call of the cleaning module, its printed lines as events. *)
Definition lift {A} (m : Py A) : IO A := (map Printed (fst m), snd m).

(** The answers of the disk are parameters: [mkdir path] is what making the
    directory [path] comes to, [write path df] what writing [df] to [path]
    comes to, each either done or the exception raised ([OSError] and its
    kin, in Python). *)
Definition disk_mkdir : Type := string -> outcome unit.
Definition disk_write : Type := string -> DataFrame -> outcome unit.

(** [os.makedirs(path, exist_ok=True)] *)
Definition makedirs (mkdir : disk_mkdir) (path : string) : IO unit :=
  match mkdir path with
  | Return _ => ([MadeDirs path], Return tt)
  | Raise e => ([], Raise e)
  end.

(** [df.to_csv(path, index=False)] *)
Definition to_csv (write : disk_write) (df : DataFrame) (path : string)
  : IO unit :=
  match write path df with
  | Return _ => ([WroteCsv path df], Return tt)
  | Raise e => ([], Raise e)
  end.

Declare Scope io_scope.
Delimit Scope io_scope with io.
Notation "x <- m ;; k" := (io_bind m (fun x => k))
  (at level 61, m at next level, right associativity) : io_scope.
Notation "m ;;; k" := (io_bind m (fun _ => k))
  (at level 61, right associativity) : io_scope.

Fixpoint io_for_each {A} (xs : list A) (body : A -> IO unit) : IO unit :=
  match xs with
  | [] => io_ret tt
  | x :: rest => io_bind (body x) (fun _ => io_for_each rest body)
  end.

(** The dictionary of tables, in insertion order. *)
Definition datasets_dict : Type := list (string * DataFrame).

Fixpoint dict_lookup (key : string) (d : datasets_dict) : option DataFrame :=
  match d with
  | [] => None
  | (k, df) :: rest => if String.eqb key k then Some df else dict_lookup key rest
  end.

(** [d[key]] *)
Definition dict_get (d : datasets_dict) (key : string) : IO DataFrame :=
  match dict_lookup key d with
  | Some df => io_ret df
  | None => ([], Raise (KeyError key))
  end.

(** [d[key] = df]: the entry of that key where it stands, or a new last
    entry. *)
Fixpoint dict_set (d : datasets_dict) (key : string) (df : DataFrame)
  : datasets_dict :=
  match d with
  | [] => [(key, df)]
  | (k, old) :: rest =>
      if String.eqb key k then (k, df) :: rest
      else (k, old) :: dict_set rest key df
  end.

Section Pipeline.

Variable parse_datetime : string -> option Z.
Variable fs : string -> option string.
Variable parse_csv : string -> outcome DataFrame.
Variable mkdir : disk_mkdir.
Variable write : disk_write.

Local Open Scope io_scope.

(** The date columns of orders that the pipeline normalizes (lines 234-235). *)
Definition pipeline_date_columns : list string :=
  ["order_purchase_timestamp"; "order_approved_at";
   "order_delivered_carrier_date"; "order_delivered_customer_date";
   "order_estimated_delivery_date"].

Definition processed_path : string := "../data/processed/".

(** [for key in datasets: datasets[key] = handle_missing_values(datasets[key],
    strategy='fill_median')], over the keys as they stood before the loop. *)
Fixpoint fill_each (keys : list string) (datasets : datasets_dict)
  : IO datasets_dict :=
  match keys with
  | [] => io_ret datasets
  | key :: keys' =>
      df <- dict_get datasets key ;;
      filled <- lift (handle_missing_values df "fill_median") ;;
      fill_each keys' (dict_set datasets key filled)
  end.

(** [prepare_data_for_analysis] (lines 212-268). *)
Definition prepare_data_for_analysis (base_path : string) (save_processed : bool)
  : IO (option datasets_dict) :=
  datasets <- lift (load_datasets fs parse_csv base_path) ;;
  match datasets with
  | None | Some [] => io_ret None
  | Some datasets =>
      orders <- dict_get datasets "orders" ;;
      let datasets :=
        dict_set datasets "orders"
          (convert_dates parse_datetime orders pipeline_date_columns) in
      orders <- dict_get datasets "orders" ;;
      orders <- lift (extract_date_features orders "order_purchase_timestamp") ;;
      let datasets := dict_set datasets "orders" orders in
      datasets <- fill_each (map fst datasets) datasets ;;
      orders <- dict_get datasets "orders" ;;
      orders <- lift (calculate_delivery_time parse_datetime orders) ;;
      let datasets := dict_set datasets "orders" orders in
      orders <- dict_get datasets "orders" ;;
      order_items <- dict_get datasets "order_items" ;;
      products <- dict_get datasets "products" ;;
      customers <- dict_get datasets "customers" ;;
      merged_data <- lift (merge_order_data orders order_items
                             (Some products) (Some customers)) ;;
      let datasets := dict_set datasets "merged_data" merged_data in
      (if save_processed then
         makedirs mkdir processed_path ;;;
         io_for_each datasets
           (fun kd => to_csv write (snd kd)
                        (processed_path ++ fst kd ++ "_processed.csv")) ;;;
         lift (print ("Dados processados salvos em " ++ processed_path))
       else io_ret tt) ;;;
      io_ret (Some datasets)
  end.

End Pipeline.
(** * Vocabulary of the properties *)

(** The column [c] of [df], if there is one, is a datetime column. *)
Definition normalized (df : DataFrame) (c : string) : Prop :=
  match getitem df c with
  | Some v => is_datetime64_dtype v = true
  | None => True
  end.

(** Days elapsed from one timestamp to another, as the calculator gets
    them: the nanoseconds as seconds, over the seconds of a day. *)
Definition elapsed_days (from to : Z) : float :=
  (float_of_Z (to - from) / float_of_Z ns_per_second / float_of_Z 86400)%float.

(** The three date columns of [orders] as the calculator reads them: what
    [to_datetime] makes of the purchase, the delivered and the estimated
    column. *)
Definition coerced_timestamps (parse_datetime : string -> option Z)
  (orders : DataFrame) (P D E : list (option Z)) : Prop :=
  exists vp vd ve,
    getitem orders "order_purchase_timestamp" = Some vp /\
    getitem orders "order_delivered_customer_date" = Some vd /\
    getitem orders "order_estimated_delivery_date" = Some ve /\
    to_datetime parse_datetime vp = DatetimeArr P /\
    to_datetime parse_datetime vd = DatetimeArr D /\
    to_datetime parse_datetime ve = DatetimeArr E.

(** In row [i] the timestamps of [X] and of [P] are both present, and their
    difference is more than a timedelta holds. *)
Definition overflows (X P : list (option Z)) (i : nat) : Prop :=
  exists t u,
    nth_error X i = Some (Some t) /\ nth_error P i = Some (Some u) /\
    in_bounds (t - u) = false.

(** No cell of the column is the missing marker. *)
Definition no_missing (v : values) : Prop :=
  Forall (fun x => cell_isna x = false) (cells v).

(** The integer zero, as a cell of an object column, or 0.0 in a float
    column. *)
Definition zero_cell (c : cell) : Prop :=
  c = Obj (Some (OInt 0)) \/ c = Flt 0%float.

(** The same datum; a timestamp may have moved to an object column. *)
Definition same_data (a b : cell) : Prop :=
  a = b \/ exists t, a = Dt (Some t) /\ b = Obj (Some (OTime t)).

(** [b] is what [fill_zero] makes of [a]. *)
Definition filled_with_zero (a b : cell) : Prop :=
  if cell_isna a then zero_cell b else same_data a b.

(** No key value matches more than one row of the key column [on] of an
    optional table: joining on it is many-to-one. *)
Definition unique_key (table : option DataFrame) (on : string) : Prop :=
  match table with
  | None => True
  | Some df =>
      forall v, getitem df on = Some v ->
                forall k, (List.length (matches k (cells v)) <= 1)%nat
  end.

(** The derived calendar columns of a datetime column, by the suffix of
    their label, in the order [extract_date_features] assigns them. *)
Definition date_features (ts : list (option Z)) : list (string * values) :=
  [("_year", dt_field year_of ts);
   ("_month", dt_field month_of ts);
   ("_day", dt_field day_of ts);
   ("_dayofweek", dt_field dayofweek_of ts);
   ("_quarter", dt_field quarter_of ts);
   ("_is_weekend", astype_int (isin (dt_field dayofweek_of ts) [5; 6]))].

(** The cell holds the integer [n], in an int or in a float column. *)
Definition holds_number (c : cell) (n : Z) : Prop :=
  c = Int n \/ c = Flt (float_of_Z n).

(** The fields read off a timestamp make a date of the calendar, the one
    of its day, and the other fields are in range. *)
Definition calendar_fields (t : Z) : Prop :=
  days_from_civil (year_of t) (month_of t) (day_of t) = days_of t /\
  1 <= month_of t <= 12 /\
  1 <= day_of t <= 31 /\
  1 <= quarter_of t <= 4 /\
  0 <= dayofweek_of t <= 6.

(** Saturday or Sunday. *)
Definition weekend_day (t : Z) : bool :=
  (dayofweek_of t =? 5) || (dayofweek_of t =? 6).

(** The six derived cells of row [i], for the timestamp [t] of that row. *)
Definition features_of_row (features : list (string * values)) (i : nat)
  (t : option Z) : Prop :=
  match features with
  | [(_, y); (_, m); (_, d); (_, w); (_, q); (_, we)] =>
      match t with
      | Some t =>
          holds_number (cell_at y i) (year_of t) /\
          holds_number (cell_at m i) (month_of t) /\
          holds_number (cell_at d i) (day_of t) /\
          holds_number (cell_at w i) (dayofweek_of t) /\
          holds_number (cell_at q i) (quarter_of t) /\
          cell_at we i = Int (if weekend_day t then 1 else 0)
      | None =>
          cell_isna (cell_at y i) = true /\
          cell_isna (cell_at m i) = true /\
          cell_isna (cell_at d i) = true /\
          cell_isna (cell_at w i) = true /\
          cell_isna (cell_at q i) = true /\
          cell_at we i = Int 0
      end
  | _ => False
  end.

(** The check of [calendar_fields] on one day number. *)
Definition calendar_check (n : Z) : bool :=
  let '(y, m, d) := civil_from_days n in
  (days_from_civil y m d =? n)
  && (1 <=? m) && (m <=? 12) && (1 <=? d) && (d <=? 31).

(** [calendar_check] on the [fuel] day numbers from [n] on. *)
Fixpoint calendar_check_from (fuel : nat) (n : Z) : bool :=
  match fuel with
  | O => true
  | S fuel' => calendar_check n && calendar_check_from fuel' (n + 1)
  end.

(** The files [load_datasets] reads, in the order it reads them. *)
Definition required_files : list string :=
  ["olist_orders_dataset.csv"; "olist_order_items_dataset.csv";
   "olist_products_dataset.csv"; "olist_customers_dataset.csv";
   "olist_sellers_dataset.csv"].

(** Every cell of the table holds a value. *)
Definition complete (df : DataFrame) : Prop :=
  forall c v, In (c, v) (columns df) -> no_missing v.

(** [w] is [v] with some of its missing cells filled: a float column keeps
    its length and every valid cell, any other column is the same. *)
Definition fills (v w : values) : Prop :=
  match v with
  | FloatArr xs =>
      exists ys, w = FloatArr ys /\
                 Forall2 (fun x y => is_nan x = false -> y = x) xs ys
  | _ => w = v
  end.

(** The line [handle_missing_values] prints at a strategy it does not know. *)
Definition unknown_strategy_warning (strategy : string) : string :=
  "Estratégia '" ++ strategy ++ "' não reconhecida. Usando 'drop' como padrão.".

(** The line the loop of [calculate_delivery_time] prints at an absent
    column. *)
Definition absent_column_report (col : string) : string :=
  "Coluna " ++ col ++ " não encontrada no DataFrame".

(** The row [r] is the row [r0] with more cells after it. *)
Definition extends (r0 r : list cell) : Prop :=
  exists more, r = (r0 ++ more)%list.

(** The line [load_datasets] prints for a table it loaded. *)
Definition shape_report (name : string) (df : DataFrame) : string :=
  name ++ ": " ++ str_nat (nrows df) ++ " linhas, "
  ++ str_nat (List.length (columns df)) ++ " colunas".

(** The tables written to disk, by path, in the order of the writes. *)
Definition written (events : list event) : list (string * DataFrame) :=
  flat_map (fun ev => match ev with
                      | WroteCsv path table => [(path, table)]
                      | _ => []
                      end) events.

(** The lines printed, in order. *)
Definition printed_lines (events : list event) : list string :=
  flat_map (fun ev => match ev with
                      | Printed line => [line]
                      | _ => []
                      end) events.

(** The path the pipeline writes the table of a key to. *)
Definition processed_file (key : string) : string :=
  processed_path ++ key ++ "_processed.csv".


(** The event of a completed write of the table of a dictionary entry. *)
Definition wrote (entry : string * DataFrame) : event :=
  WroteCsv (processed_file (fst entry)) (snd entry).

(** The file and the table of a dictionary entry. *)
Definition file_of (entry : string * DataFrame) : string * DataFrame :=
  (processed_file (fst entry), snd entry).


(** The columns the delivery-time calculator assigns. *)
Definition derived_columns : list string :=
  ["delivery_time_days"; "estimated_delivery_time_days";
   "delivery_time_difference"; "delivered_on_time"].

(** * Sample tables *)

(** Two orders: one delivered five days ahead of the estimate; one not
    delivered, with an estimate that is not a date. *)
Definition orders_sample : DataFrame :=
  mkDataFrame 2
    [("order_id", ObjectArr [Some (OStr "a1"); Some (OStr "b2")]);
     ("order_purchase_timestamp",
      ObjectArr [Some (OStr "2022-01-01 00:00:00"); Some (OStr "2022-01-03 10:30:00")]);
     ("order_delivered_customer_date",
      ObjectArr [Some (OStr "2022-01-05 00:00:00"); None]);
     ("order_estimated_delivery_date",
      ObjectArr [Some (OStr "2022-01-10 00:00:00"); Some (OStr "soon")])].

(** What [calculate_delivery_time] returns on [orders_sample]. *)
Definition orders_sample_timed : DataFrame :=
  mkDataFrame 2
    [("order_id", ObjectArr [Some (OStr "a1"); Some (OStr "b2")]);
     ("order_purchase_timestamp",
      DatetimeArr [Some 1640995200000000000; Some 1641205800000000000]);
     ("order_delivered_customer_date",
      DatetimeArr [Some 1641340800000000000; None]);
     ("order_estimated_delivery_date",
      DatetimeArr [Some 1641772800000000000; None]);
     ("delivery_time_days", FloatArr [4%float; nan]);
     ("estimated_delivery_time_days", FloatArr [9%float; nan]);
     ("delivery_time_difference", FloatArr [(-5)%float; nan]);
     ("delivered_on_time", BoolArr [true; false])].

(** An orders table without the delivered-to-customer column, its dates
    still text. *)
Definition orders_without_delivered : DataFrame :=
  mkDataFrame 2
    [("order_id", ObjectArr [Some (OStr "a1"); Some (OStr "b2")]);
     ("order_purchase_timestamp",
      ObjectArr [Some (OStr "2022-01-01 00:00:00"); Some (OStr "n/a")]);
     ("order_estimated_delivery_date",
      ObjectArr [Some (OStr "2022-01-10 00:00:00"); Some (OStr "2022-01-12 00:00:00")])].

(** An order with no delivery yet, and one whose purchase and delivery are
    more than 292 years apart, the span of a timedelta. *)
Definition orders_far_apart : DataFrame :=
  mkDataFrame 2
    [("order_purchase_timestamp",
      ObjectArr [Some (OStr "2022-01-01 00:00:00"); Some (OStr "1700-01-01 00:00:00")]);
     ("order_delivered_customer_date",
      ObjectArr [None; Some (OStr "2250-01-01 00:00:00")]);
     ("order_estimated_delivery_date",
      ObjectArr [Some (OStr "2022-01-10 00:00:00"); Some (OStr "1700-02-01 00:00:00")])].

(** One order of two items, a catalogue that lists the product of the
    first item twice, and the customer of the order. *)
Definition one_order : DataFrame :=
  mkDataFrame 1
    [("order_id", ObjectArr [Some (OStr "a1")]);
     ("customer_id", ObjectArr [Some (OStr "c1")])].

Definition two_items : DataFrame :=
  mkDataFrame 3
    [("order_id", ObjectArr [Some (OStr "a1"); Some (OStr "a1"); Some (OStr "zz")]);
     ("product_id", ObjectArr [Some (OStr "p1"); Some (OStr "p2"); Some (OStr "p1")]);
     ("price", FloatArr [10%float; 2.5%float; 10%float])].

Definition products_listed_twice : DataFrame :=
  mkDataFrame 2
    [("product_id", ObjectArr [Some (OStr "p1"); Some (OStr "p1")]);
     ("product_weight_g", IntArr [300; 350])].

Definition products_listed_once : DataFrame :=
  mkDataFrame 2
    [("product_id", ObjectArr [Some (OStr "p1"); Some (OStr "p3")]);
     ("product_weight_g", IntArr [300; 120])].

Definition one_customer : DataFrame :=
  mkDataFrame 1
    [("customer_id", ObjectArr [Some (OStr "c1")]);
     ("customer_state", ObjectArr [Some (OStr "SP")])].

(** A table with a datetime column [d] that already has a column [d_year]. *)
Definition dated_with_year : DataFrame :=
  mkDataFrame 2
    [("d", DatetimeArr [Some 1641340800000000000; Some 1641686400000000000]);
     ("d_year", ObjectArr [Some (OStr "MMXXII"); None])].

(** A table with a datetime column [d]: a Wednesday, a NaT and a Sunday. *)
Definition dated : DataFrame :=
  mkDataFrame 3
    [("d", DatetimeArr [Some 1641340800000000000; None; Some 1641686400000000000]);
     ("n", IntArr [1; 2; 3])].

(** What [merge_order_data] returns on [one_order], [two_items],
    [products_listed_once] and [one_customer]. *)
Definition merged_sample : DataFrame :=
  Eval vm_compute in
    match merge_order_data one_order two_items
            (Some products_listed_once) (Some one_customer) with
    | (_, Return merged) => merged
    | (_, Raise _) => mkDataFrame 0 []
    end.

(** Order items whose freight value is missing in every row. *)
Definition items_without_freight : DataFrame :=
  mkDataFrame 3
    [("order_id", ObjectArr [Some (OStr "a1"); Some (OStr "a1"); None]);
     ("price", FloatArr [10%float; nan; 2.5%float]);
     ("freight_value", FloatArr [nan; nan; nan])].

(** A reader that makes an empty one-column table, labelled by the text. *)
Definition header_reader (text : string) : outcome DataFrame :=
  Return (mkDataFrame 0 [(text, ObjectArr [])]).

(** A directory with the orders and order_items files only. *)
Definition disk_without_products (path : string) : option string :=
  if String.eqb path "raw/olist_orders_dataset.csv" then Some "order_id"
  else if String.eqb path "raw/olist_order_items_dataset.csv" then Some "order_id"
  else None.

(** A directory with an orders file of no content, and no other file. *)
Definition disk_with_empty_orders (path : string) : option string :=
  if String.eqb path "raw/olist_orders_dataset.csv" then Some EmptyString
  else None.

(** The five raw tables of a small shop, as text tables still. *)
Definition raw_orders : DataFrame :=
  mkDataFrame 2
    [("order_id", ObjectArr [Some (OStr "a1"); Some (OStr "b2")]);
     ("customer_id", ObjectArr [Some (OStr "c1"); Some (OStr "c2")]);
     ("order_purchase_timestamp",
      ObjectArr [Some (OStr "2022-01-01 00:00:00"); Some (OStr "2022-01-03 10:30:00")]);
     ("order_delivered_customer_date",
      ObjectArr [Some (OStr "2022-01-05 00:00:00"); None]);
     ("order_estimated_delivery_date",
      ObjectArr [Some (OStr "2022-01-10 00:00:00"); Some (OStr "2022-01-20 00:00:00")])].

Definition two_customers : DataFrame :=
  mkDataFrame 2
    [("customer_id", ObjectArr [Some (OStr "c1"); Some (OStr "c2")]);
     ("customer_state", ObjectArr [Some (OStr "SP"); None])].

Definition one_seller : DataFrame :=
  mkDataFrame 1
    [("seller_id", ObjectArr [Some (OStr "s1")]);
     ("seller_zip_code_prefix", IntArr [13023])].

(** A reader that knows the five tables by the text of their file. *)
Definition shop_reader (text : string) : outcome DataFrame :=
  if String.eqb text "orders" then Return raw_orders
  else if String.eqb text "order_items" then Return two_items
  else if String.eqb text "products" then Return products_listed_once
  else if String.eqb text "customers" then Return two_customers
  else if String.eqb text "sellers" then Return one_seller
  else Raise ParserError.

(** A directory with the five files. *)
Definition shop_disk (path : string) : option string :=
  if String.eqb path "raw/olist_orders_dataset.csv" then Some "orders"
  else if String.eqb path "raw/olist_order_items_dataset.csv" then Some "order_items"
  else if String.eqb path "raw/olist_products_dataset.csv" then Some "products"
  else if String.eqb path "raw/olist_customers_dataset.csv" then Some "customers"
  else if String.eqb path "raw/olist_sellers_dataset.csv" then Some "sellers"
  else None.

(** The same directory, the order_items file without content. *)
Definition shop_disk_empty_items (path : string) : option string :=
  if String.eqb path "raw/olist_order_items_dataset.csv" then Some EmptyString
  else shop_disk path.

(** A disk that takes the directory and every file. *)
Definition disk_ready : disk_mkdir := fun _ => Return tt.
Definition disk_accepts : disk_write := fun _ _ => Return tt.

(** * Properties *)

(** ** Frames: reading and assigning columns *)

Lemma lookup_assign (c c' : string) (v : values) (cols : list (string * values)) :
  lookup c' (assign c v cols) = if String.eqb c' c then Some v else lookup c' cols.
Proof.
  induction cols as [|[d w] cols IH]; cbn.
  - destruct (String.eqb c' c); reflexivity.
  - destruct (String.eqb c d) eqn:Hcd; cbn.
    + apply String.eqb_eq in Hcd; subst d.
      destruct (String.eqb c' c); reflexivity.
    + destruct (String.eqb c' d) eqn:Hd.
      * apply String.eqb_eq in Hd; subst d.
        rewrite String.eqb_sym, Hcd. reflexivity.
      * exact IH.
Qed.

Lemma getitem_setitem (df : DataFrame) (c c' : string) (v : values) :
  getitem (setitem df c v) c' = if String.eqb c' c then Some v else getitem df c'.
Proof. apply lookup_assign. Qed.

Lemma assign_same (c : string) (v : values) (cols : list (string * values)) :
  lookup c cols = Some v -> assign c v cols = cols.
Proof.
  induction cols as [|[d w] cols IH]; cbn; [discriminate|].
  destruct (String.eqb c d) eqn:Hcd.
  - intros [= ->]. reflexivity.
  - intros H. rewrite (IH H). reflexivity.
Qed.

Lemma setitem_same (df : DataFrame) (c : string) (v : values) :
  getitem df c = Some v -> setitem df c v = df.
Proof.
  destruct df as [n cols]. unfold getitem, setitem; cbn.
  intros H. rewrite (assign_same _ _ _ H). reflexivity.
Qed.

Lemma assign_fresh (c : string) (v : values) (cols : list (string * values)) :
  lookup c cols = None -> assign c v cols = (cols ++ [(c, v)])%list.
Proof.
  induction cols as [|[d w] cols IH]; cbn; [reflexivity|].
  destruct (String.eqb c d); [discriminate|].
  intros H. rewrite (IH H). reflexivity.
Qed.

Lemma lookup_app_fresh (c : string) (cols more : list (string * values)) :
  lookup c (cols ++ more) =
  match lookup c cols with Some v => Some v | None => lookup c more end.
Proof.
  induction cols as [|[d w] cols IH]; cbn; [reflexivity|].
  destruct (String.eqb c d); [reflexivity|exact IH].
Qed.

Lemma nrows_setitem (df : DataFrame) (c : string) (v : values) :
  nrows (setitem df c v) = nrows df.
Proof. reflexivity. Qed.

(** ** Date normalization *)

Section Normalization.

Variable parse_datetime : string -> option Z.

Let step := convert_dates_body parse_datetime.

Lemma to_datetime_is_datetime (v : values) :
  is_datetime64_dtype (to_datetime parse_datetime v) = true.
Proof. destruct v; reflexivity. Qed.

Lemma to_datetime_fixed (v : values) :
  is_datetime64_dtype v = true -> to_datetime parse_datetime v = v.
Proof. destruct v; cbn; congruence. Qed.

Lemma step_normalizes (df : DataFrame) (col : string) :
  normalized (step df col) col.
Proof.
  unfold normalized, step, convert_dates_body.
  destruct (getitem df col) as [v|] eqn:H.
  - rewrite getitem_setitem, String.eqb_refl. apply to_datetime_is_datetime.
  - rewrite H. exact I.
Qed.

Lemma step_keeps_normalized (df : DataFrame) (col c : string) :
  normalized df c -> normalized (step df col) c.
Proof.
  destruct (String.eqb c col) eqn:Hc.
  - apply String.eqb_eq in Hc; subst c. intros _. apply step_normalizes.
  - unfold normalized, step, convert_dates_body.
    destruct (getitem df col); [|tauto].
    rewrite getitem_setitem, Hc. tauto.
Qed.

Lemma fold_keeps_normalized (cols : list string) (df : DataFrame) (c : string) :
  normalized df c -> normalized (fold_left step cols df) c.
Proof.
  revert df. induction cols as [|col cols IH]; cbn; intros df H; [exact H|].
  apply IH, step_keeps_normalized, H.
Qed.

Lemma convert_dates_normalizes (cols : list string) (df : DataFrame) (c : string) :
  In c cols -> normalized (convert_dates parse_datetime df cols) c.
Proof.
  unfold convert_dates. fold step.
  revert df. induction cols as [|col cols IH]; cbn; intros df; [tauto|].
  intros [->|Hin].
  - apply fold_keeps_normalized, step_normalizes.
  - apply IH, Hin.
Qed.

Lemma step_fixed (df : DataFrame) (col : string) :
  normalized df col -> step df col = df.
Proof.
  unfold normalized, step, convert_dates_body.
  destruct (getitem df col) as [v|] eqn:H; [|reflexivity].
  intros Hv. rewrite (to_datetime_fixed _ Hv). apply setitem_same, H.
Qed.

Lemma convert_dates_fixed (cols : list string) (df : DataFrame) :
  (forall c, In c cols -> normalized df c) ->
  convert_dates parse_datetime df cols = df.
Proof.
  unfold convert_dates. fold step.
  induction cols as [|col cols IH]; cbn; intros H; [reflexivity|].
  rewrite step_fixed by (apply H; left; reflexivity).
  apply IH. intros c Hc. apply H. right. exact Hc.
Qed.

(** C9.  Date normalization is idempotent: for every table and every list
    of column names, normalizing the normalized table again, on the same
    list, returns the normalized table. *)
Theorem convert_dates_idempotent (df : DataFrame) (date_columns : list string) :
  convert_dates parse_datetime
    (convert_dates parse_datetime df date_columns) date_columns
  = convert_dates parse_datetime df date_columns.
Proof.
  apply convert_dates_fixed.
  intros c Hc. apply convert_dates_normalizes, Hc.
Qed.

End Normalization.

(** ** binary64: the missing marker *)





Lemma float_of_Z_0 : float_of_Z 0 = 0%float.
Proof. reflexivity. Qed.


(** ** Lists by position *)

Lemma nth_error_map2 {A B C} (f : A -> B -> C) (xs : list A) (ys : list B)
  (i : nat) (x : A) (y : B) :
  nth_error xs i = Some x -> nth_error ys i = Some y ->
  nth_error (map2 f xs ys) i = Some (f x y).
Proof.
  revert ys i. induction xs as [|a xs IH]; intros [|b ys] [|i]; cbn;
    try discriminate.
  - intros [= ->] [= ->]. reflexivity.
  - apply IH.
Qed.

Lemma nth_error_map_some {A B} (f : A -> B) (xs : list A) (i : nat) (x : A) :
  nth_error xs i = Some x -> nth_error (map f xs) i = Some (f x).
Proof.
  intros H. rewrite nth_error_map, H. reflexivity.
Qed.

Lemma nth_error_sub_datetimes (a b r : list (option Z)) :
  sub_datetimes a b = Return r ->
  forall i x y, nth_error a i = Some x -> nth_error b i = Some y ->
    nth_error r i = Some (match x, y with
                          | Some t, Some u => Some (t - u)
                          | _, _ => None
                          end).
Proof.
  revert b r. induction a as [|x0 a IH]; intros [|y0 b] r H [|i] x y; cbn;
    try discriminate.
  - intros [= ->] [= ->]. cbn in H.
    destruct x, y; try destruct (in_bounds _); try discriminate;
      destruct (sub_datetimes a b); try discriminate;
      injection H as <-; reflexivity.
  - intros Hx Hy. cbn in H.
    destruct x0, y0; try destruct (in_bounds _); try discriminate;
      destruct (sub_datetimes a b) as [r'|] eqn:Hr; try discriminate;
      injection H as <-; cbn; eapply IH; eauto.
Qed.

(** ** The delivery-time calculator *)

Section DeliveryTime.

Variable parse_datetime : string -> option Z.

Let calculate := calculate_delivery_time parse_datetime.

(** The loop over the date columns either reports an absent column and
    returns, or hands over a frame in which the columns are datetime
    columns; datetime columns of the input are not touched. *)
Lemma check_date_cols_inv (cols : list string) (rest : DataFrame -> Py DataFrame) :
  forall (df : DataFrame) (out : list string) (r : outcome DataFrame),
    check_date_cols parse_datetime cols df rest = (out, r) ->
    (exists col df',
        In col cols /\
        out = ["Coluna " ++ col ++ " não encontrada no DataFrame"] /\
        r = Return df')
    \/
    (exists df',
        rest df' = (out, r) /\
        (forall c, In c cols -> exists ts, getitem df' c = Some (DatetimeArr ts)) /\
        (forall c ts, getitem df c = Some (DatetimeArr ts) ->
                      getitem df' c = Some (DatetimeArr ts))).
Proof.
  induction cols as [|col cols IH]; intros df out r H; cbn in H.
  - right. exists df. repeat split; [exact H | intros c [] | auto].
  - destruct (getitem df col) as [v|] eqn:Hv.
    + set (df1 := if negb (is_datetime64_dtype v)
                  then setitem df col (to_datetime parse_datetime v)
                  else df) in H.
      assert (Hcol : exists ts, getitem df1 col = Some (DatetimeArr ts)).
      { subst df1. destruct (is_datetime64_dtype v) eqn:Hdt; cbn [negb].
        - destruct v; try discriminate. eauto.
        - rewrite getitem_setitem, String.eqb_refl.
          destruct v; cbn [to_datetime]; eauto. }
      assert (Hsame : forall c ts, getitem df c = Some (DatetimeArr ts) ->
                                   getitem df1 c = Some (DatetimeArr ts)).
      { intros c ts Hc. subst df1.
        destruct (negb (is_datetime64_dtype v)) eqn:Hdt; [|exact Hc].
        rewrite getitem_setitem.
        destruct (String.eqb c col) eqn:Hcc; [|exact Hc].
        apply String.eqb_eq in Hcc; subst c.
        rewrite Hv in Hc. injection Hc as ->. discriminate. }
      apply IH in H as [(c' & df' & Hin & Hout & Hr) | (df' & Hrest & Hall & Hkeep)].
      * left. exists c', df'. repeat split; auto. right; exact Hin.
      * right. exists df'. split; [exact Hrest|]. split.
        -- intros c [<-|Hin]; [|apply Hall, Hin].
           destruct Hcol as [ts Hts]. exists ts. apply Hkeep, Hts.
        -- intros c ts Hc. apply Hkeep, Hsame, Hc.
    + left. exists col, df. cbn in H. injection H as <- <-.
      repeat split. left; reflexivity.
Qed.

(** What a call that returned without reporting an absent column has
    computed. *)
Lemma calculate_delivery_time_returns (orders df : DataFrame) :
  calculate orders = ([], Return df) ->
  exists P D E td_actual td_estimated,
    getitem df "order_purchase_timestamp" = Some (DatetimeArr P) /\
    getitem df "order_delivered_customer_date" = Some (DatetimeArr D) /\
    getitem df "order_estimated_delivery_date" = Some (DatetimeArr E) /\
    sub_datetimes D P = Return td_actual /\
    sub_datetimes E P = Return td_estimated /\
    let days := map (fun x => (x / float_of_Z 86400)%float) (total_seconds td_actual) in
    let estimated := map (fun x => (x / float_of_Z 86400)%float) (total_seconds td_estimated) in
    let difference := map2 PrimFloat.sub days estimated in
    getitem df "delivery_time_days" = Some (FloatArr days) /\
    getitem df "estimated_delivery_time_days" = Some (FloatArr estimated) /\
    getitem df "delivery_time_difference" = Some (FloatArr difference) /\
    getitem df "delivered_on_time"
      = Some (BoolArr (map (fun x => (x <=? 0)%float) difference)).
Proof.
  unfold calculate, calculate_delivery_time. intros H.
  apply check_date_cols_inv in H
    as [(c' & df' & _ & Hout & _) | (df' & Hrest & Hall & _)];
    [discriminate|].
  destruct (Hall "order_purchase_timestamp") as [P HP]; [cbn; auto|].
  destruct (Hall "order_delivered_customer_date") as [D HD]; [cbn; auto|].
  destruct (Hall "order_estimated_delivery_date") as [E HE]; [cbn; auto|].
  exists P, D, E.
  unfold timedelta, bind in Hrest. cbn beta in Hrest.
  rewrite HD, HP in Hrest.
  destruct (sub_datetimes D P) as [td1|] eqn:H1; [|discriminate].
  rewrite !getitem_setitem in Hrest. cbn in Hrest.
  rewrite HE, HP in Hrest.
  destruct (sub_datetimes E P) as [td2|] eqn:H2; [|discriminate].
  exists td1, td2.
  unfold getitem in *. cbn in Hrest.
  repeat (rewrite !lookup_assign in Hrest; cbn in Hrest).
  injection Hrest as <-. cbn.
  rewrite !lookup_assign; cbn.
  rewrite HP, HD, HE. repeat split; reflexivity.
Qed.

End DeliveryTime.


Section DeliveryTimeResults.

Variable parse_datetime : string -> option Z.

Let calculate := calculate_delivery_time parse_datetime.

(** C1.  On every orders table on which the calculator succeeds (it returns
    and reports no absent column), in every row whose purchase, delivered and
    estimated timestamps are all present, the difference is the actual minus
    the estimated delivery time, and [delivery_time_difference <= 0] holds if
    and only if [delivered_on_time] is true. *)
Theorem delivered_on_time_iff_difference (orders df : DataFrame) :
  calculate orders = ([], Return df) ->
  exists P D E difference on_time,
    getitem df "order_purchase_timestamp" = Some (DatetimeArr P) /\
    getitem df "order_delivered_customer_date" = Some (DatetimeArr D) /\
    getitem df "order_estimated_delivery_date" = Some (DatetimeArr E) /\
    getitem df "delivery_time_difference" = Some (FloatArr difference) /\
    getitem df "delivered_on_time" = Some (BoolArr on_time) /\
    forall i p d e,
      nth_error P i = Some (Some p) ->
      nth_error D i = Some (Some d) ->
      nth_error E i = Some (Some e) ->
      exists x b,
        nth_error difference i = Some x /\
        nth_error on_time i = Some b /\
        x = (elapsed_days p d - elapsed_days p e)%float /\
        ((x <=? 0)%float = true <-> b = true).
Proof.
  intros H.
  destruct (calculate_delivery_time_returns _ _ _ H)
    as (P & D & E & td1 & td2 & HP & HD & HE & H1 & H2 & _ & _ & Hdiff & Hflag).
  exists P, D, E. eexists. eexists.
  repeat (split; [eassumption|]).
  intros i p d e Hp Hd He.
  pose proof (nth_error_sub_datetimes _ _ _ H1 i _ _ Hd Hp) as Ha.
  pose proof (nth_error_sub_datetimes _ _ _ H2 i _ _ He Hp) as Hb.
  cbn in Ha, Hb.
  eexists. eexists. split; [|split; [|split]].
  - eapply nth_error_map2; apply nth_error_map_some;
      unfold total_seconds; apply nth_error_map_some; eassumption.
  - apply nth_error_map_some. eapply nth_error_map2; apply nth_error_map_some;
      unfold total_seconds; apply nth_error_map_some; eassumption.
  - reflexivity.
  - tauto.
Qed.

End DeliveryTimeResults.


Lemma delivered_on_time_iff_difference_witness :
  exists P D E difference on_time,
    getitem orders_sample_timed "order_purchase_timestamp" = Some (DatetimeArr P) /\
    getitem orders_sample_timed "order_delivered_customer_date" = Some (DatetimeArr D) /\
    getitem orders_sample_timed "order_estimated_delivery_date" = Some (DatetimeArr E) /\
    getitem orders_sample_timed "delivery_time_difference" = Some (FloatArr difference) /\
    getitem orders_sample_timed "delivered_on_time" = Some (BoolArr on_time) /\
    forall i p d e,
      nth_error P i = Some (Some p) ->
      nth_error D i = Some (Some d) ->
      nth_error E i = Some (Some e) ->
      exists x b,
        nth_error difference i = Some x /\
        nth_error on_time i = Some b /\
        x = (elapsed_days p d - elapsed_days p e)%float /\
        ((x <=? 0)%float = true <-> b = true).
Proof.
  apply (delivered_on_time_iff_difference parse_iso orders_sample).
  vm_compute. reflexivity.
Defined.


Lemma column_names_assign_present (c : string) (v w : values)
  (cols : list (string * values)) :
  lookup c cols = Some w -> map fst (assign c v cols) = map fst cols.
Proof.
  induction cols as [|[d x] cols IH]; cbn; [discriminate|].
  destruct (String.eqb c d); cbn; [reflexivity|].
  intros H. rewrite (IH H). reflexivity.
Qed.

(** The loop of the calculator at an absent column: it reports the first
    one and returns a frame with the labels and the row count of its input,
    in which the columns outside the list are untouched. *)
Lemma check_date_cols_absent (parse_datetime : string -> option Z)
  (rest : DataFrame -> Py DataFrame) (cols : list string) :
  forall df,
    (exists c, In c cols /\ getitem df c = None) ->
    exists c df',
      In c cols /\
      check_date_cols parse_datetime cols df rest
      = (["Coluna " ++ c ++ " não encontrada no DataFrame"], Return df') /\
      column_names df' = column_names df /\
      nrows df' = nrows df /\
      (forall c', ~ In c' cols -> getitem df' c' = getitem df c').
Proof.
  induction cols as [|col cols IH]; intros df (c & Hin & Habs); [destruct Hin|].
  cbn [check_date_cols].
  destruct (getitem df col) as [v|] eqn:Hv.
  - destruct Hin as [-> | Hin]; [congruence|].
    set (df1 := if negb (is_datetime64_dtype v)
                then setitem df col (to_datetime parse_datetime v)
                else df).
    assert (Hnames : column_names df1 = column_names df).
    { subst df1. destruct (negb (is_datetime64_dtype v)); [|reflexivity].
      unfold column_names, setitem; cbn [columns].
      eapply column_names_assign_present. exact Hv. }
    assert (Hrows : nrows df1 = nrows df).
    { subst df1. destruct (negb (is_datetime64_dtype v)); reflexivity. }
    assert (Hother : forall c', c' <> col -> getitem df1 c' = getitem df c').
    { intros c' Hne. subst df1.
      destruct (negb (is_datetime64_dtype v)); [|reflexivity].
      rewrite getitem_setitem.
      apply String.eqb_neq in Hne. rewrite Hne. reflexivity. }
    destruct (IH df1) as (c0 & df' & Hin0 & Hrun & Hn & Hr & Hkeep).
    { exists c. split; [exact Hin|]. rewrite Hother; [exact Habs|].
      intros ->. congruence. }
    exists c0, df'. split; [right; exact Hin0|]. split; [exact Hrun|].
    split; [congruence|]. split; [congruence|].
    intros c' Hc'. rewrite Hkeep by (intros Hc0; apply Hc'; right; exact Hc0).
    apply Hother. intros ->. apply Hc'. left; reflexivity.
  - exists col, df. split; [left; reflexivity|]. repeat split.
Qed.


(** Without the purchase column, the first one of the loop, the input comes
    back as it is. *)
Lemma calculate_delivery_time_absent_purchase (parse_datetime : string -> option Z)
  (orders : DataFrame) :
  getitem orders "order_purchase_timestamp" = None ->
  calculate_delivery_time parse_datetime orders
  = (["Coluna order_purchase_timestamp não encontrada no DataFrame"], Return orders).
Proof.
  intros H. unfold calculate_delivery_time, date_cols. cbn [check_date_cols].
  rewrite H. reflexivity.
Qed.

(** C2 at a table without the delivered-to-customer column: the calculator
    reports the absent column, and the table it returns is not its input; the
    purchase column, met earlier in the loop, has been turned into timestamps
    (and its unreadable cell into NaT). *)
Theorem calculate_delivery_time_absent_column_converts :
  exists df,
    calculate_delivery_time parse_iso orders_without_delivered
    = (["Coluna order_delivered_customer_date não encontrada no DataFrame"],
       Return df) /\
    getitem orders_without_delivered "order_purchase_timestamp"
    = Some (ObjectArr [Some (OStr "2022-01-01 00:00:00"); Some (OStr "n/a")]) /\
    getitem df "order_purchase_timestamp"
    = Some (DatetimeArr [Some 1640995200000000000; None]) /\
    df <> orders_without_delivered.
Proof.
  eexists. split; [vm_compute; reflexivity|].
  split; [reflexivity|]. split; [reflexivity|].
  intros Heq. apply (f_equal (fun d => getitem d "order_purchase_timestamp")) in Heq.
  vm_compute in Heq. discriminate.
Qed.

(** ** Missing timestamps *)

Section MissingTimestamps.

Variable parse_datetime : string -> option Z.

Let calculate := calculate_delivery_time parse_datetime.





End MissingTimestamps.


(** The exception of the calculator, on [orders_far_apart]: the first row,
    which has no delivered timestamp, does not raise it; the second one,
    whose timestamps are all present, does. *)
Lemma calculate_delivery_time_overflow_sample :
  calculate_delivery_time parse_iso orders_far_apart = ([], Raise OverflowError) /\
  exists P D E,
    coerced_timestamps parse_iso orders_far_apart P D E /\
    nth_error D 0 = Some None /\
    ~ overflows D P 0 /\ ~ overflows E P 0 /\
    overflows D P 1.
Proof.
  split; [vm_compute; reflexivity|].
  exists [Some 1640995200000000000; Some (-8520336000000000000)],
         [None; Some 8835955200000000000],
         [Some 1641772800000000000; Some (-8517657600000000000)].
  split.
  { do 3 eexists. do 3 (split; [reflexivity|]).
    repeat split; vm_compute; reflexivity. }
  split; [reflexivity|].
  split; [|split].
  - intros (t & u & Ht & _). discriminate.
  - intros (t & u & Ht & Hu & Hb). cbn in Ht, Hu.
    injection Ht as <-. injection Hu as <-. vm_compute in Hb. discriminate.
  - exists 8835955200000000000, (-8520336000000000000).
    repeat split; vm_compute; reflexivity.
Qed.

(** ** The missing-value handler *)

Lemma cells_take (idx : list nat) (v : values) :
  cells (take idx v) = map (cell_at v) idx.
Proof. destruct v; cbn; rewrite map_map; reflexivity. Qed.

Lemma nth_map_in_range {A B} (f : A -> B) (l : list A) (k : nat) (d : B) (a : A) :
  (k < List.length l)%nat -> nth k (map f l) d = f (nth k l a).
Proof.
  intros Hk. rewrite (nth_indep _ d (f a)) by (rewrite length_map; exact Hk).
  apply map_nth.
Qed.

Lemma cell_at_take (idx : list nat) (v : values) (k : nat) :
  (k < List.length idx)%nat -> cell_at (take idx v) k = cell_at v (nth k idx O).
Proof.
  intros Hk. destruct v; cbn; f_equal;
    rewrite nth_map_in_range with (a := O) by exact Hk; reflexivity.
Qed.

Lemma map_nth_seq {A B} (f : A -> B) (l : list A) (a : A) :
  map (fun k => f (nth k l a)) (seq 0 (List.length l)) = map f l.
Proof.
  rewrite <- (map_map (fun k => nth k l a) f). f_equal.
  symmetry. apply nth_ext with (d := a) (d' := a).
  - rewrite length_map, length_seq. reflexivity.
  - intros n Hn.
    rewrite (nth_map_in_range (fun k => nth k l a) (seq 0 (List.length l)) n a O)
      by (rewrite length_seq; exact Hn).
    rewrite seq_nth by exact Hn. reflexivity.
Qed.

(** The rows of [df.take(idx)] are the rows of [df] at [idx]. *)
Lemma rows_take_rows (idx : list nat) (df : DataFrame) :
  rows (take_rows idx df) = map (row df) idx.
Proof.
  unfold rows, take_rows; cbn [nrows].
  rewrite <- (map_nth_seq (row df) idx O).
  apply map_ext_in. intros k Hk. apply in_seq in Hk.
  unfold row; cbn [columns]. rewrite map_map.
  apply map_ext. intros c; cbn. apply cell_at_take. lia.
Qed.

Lemma dropna_rows (df : DataFrame) :
  rows (dropna df)
  = filter (forallb (fun c => negb (cell_isna c))) (rows df).
Proof.
  unfold dropna. rewrite rows_take_rows. unfold rows.
  generalize (seq 0 (nrows df)) as l.
  induction l as [|i l IH]; cbn; [reflexivity|].
  destruct (forallb _ (row df i)); cbn; rewrite IH; reflexivity.
Qed.

Lemma dropna_no_missing (df : DataFrame) (c : string) (v : values) :
  In (c, v) (columns (dropna df)) -> no_missing v.
Proof.
  unfold dropna, take_rows; cbn [columns]. intros Hin.
  apply in_map_iff in Hin as ([c0 v0] & [= <- <-] & Hin0).
  unfold no_missing. rewrite cells_take. apply Forall_map, Forall_forall.
  intros i Hi. apply filter_In in Hi as [_ Hkeep].
  rewrite forallb_forall in Hkeep.
  specialize (Hkeep (cell_at v0 i)).
  apply negb_true_iff, Hkeep.
  unfold row. apply in_map_iff. exists (c0, v0). auto.
Qed.

Lemma column_names_take_rows (idx : list nat) (df : DataFrame) :
  column_names (take_rows idx df) = column_names df.
Proof.
  unfold column_names, take_rows; cbn. rewrite map_map. reflexivity.
Qed.

(** C6.  For every table, the handler with strategy [drop] returns a table
    without any missing value in any column, each of whose rows is, cell by
    cell, a row of the input (the columns are those of the input). *)
Theorem drop_rows_without_missing (df : DataFrame) :
  exists out,
    handle_missing_values df "drop" = ([], Return out) /\
    column_names out = column_names df /\
    (forall c v, In (c, v) (columns out) -> no_missing v) /\
    (forall r, In r (rows out) -> In r (rows df)).
Proof.
  exists (dropna df). split; [reflexivity|].
  split; [apply column_names_take_rows|].
  split; [apply dropna_no_missing|].
  intros r Hr. rewrite dropna_rows in Hr. apply filter_In in Hr. tauto.
Qed.

Lemma fillna_zero_no_missing (v : values) : no_missing (fillna_zero v).
Proof.
  unfold no_missing. destruct v as [xs|xs|xs|xs|xs]; cbn.
  - rewrite map_map. apply Forall_map, Forall_forall. intros [o|] _; reflexivity.
  - rewrite map_map. apply Forall_map, Forall_forall. intros x _; cbn.
    destruct (is_nan x) eqn:Hx; [reflexivity|exact Hx].
  - apply Forall_map, Forall_forall. reflexivity.
  - apply Forall_map, Forall_forall. reflexivity.
  - destruct (forallb is_some xs) eqn:Hall; cbn.
    + rewrite forallb_forall in Hall. apply Forall_map, Forall_forall.
      intros o Ho. specialize (Hall o Ho). destruct o; [reflexivity|discriminate].
    + rewrite map_map. apply Forall_map, Forall_forall. intros [t|] _; reflexivity.
Qed.

Lemma fillna_zero_cells (v : values) :
  Forall2 filled_with_zero (cells v) (cells (fillna_zero v)).
Proof.
  assert (Hsame : forall l : list cell,
             Forall (fun x => cell_isna x = false) l ->
             Forall2 filled_with_zero l l).
  { induction 1 as [|x l Hx _ IH]; constructor; [|exact IH].
    unfold filled_with_zero. rewrite Hx. left; reflexivity. }
  destruct v as [xs|xs|xs|xs|xs]; cbn.
  - induction xs as [|[o|] xs IH]; cbn; constructor; try exact IH.
    + left; reflexivity.
    + left; reflexivity.
  - induction xs as [|x xs IH]; cbn; constructor; try exact IH.
    unfold filled_with_zero; cbn. destruct (is_nan x).
    + right; reflexivity.
    + left; reflexivity.
  - apply Hsame, Forall_map, Forall_forall. reflexivity.
  - apply Hsame, Forall_map, Forall_forall. reflexivity.
  - destruct (forallb is_some xs) eqn:Hall; cbn.
    + apply Hsame, Forall_map, Forall_forall. rewrite forallb_forall in Hall.
      intros o Ho. specialize (Hall o Ho). destruct o; [reflexivity|discriminate].
    + clear Hall. induction xs as [|[t|] xs IH]; cbn; constructor; try exact IH.
      * right. exists t. auto.
      * left; reflexivity.
Qed.

(** C5.  For every table, the handler with strategy [fill_zero] returns a
    table with the same columns and no missing value in any of them: each
    missing cell holds the literal zero, whatever the dtype of its column,
    and every other cell its datum. *)
Theorem fill_zero_leaves_no_missing (df : DataFrame) :
  exists out,
    handle_missing_values df "fill_zero" = ([], Return out) /\
    nrows out = nrows df /\
    (forall c v, In (c, v) (columns out) -> no_missing v) /\
    Forall2 (fun cin cout =>
               fst cout = fst cin /\
               Forall2 filled_with_zero (cells (snd cin)) (cells (snd cout)))
            (columns df) (columns out).
Proof.
  exists (fillna_zero_frame df). split; [reflexivity|]. split; [reflexivity|].
  unfold fillna_zero_frame; cbn [columns]. split.
  - intros c v Hin. apply in_map_iff in Hin as ([c0 v0] & [= <- <-] & _).
    apply fillna_zero_no_missing.
  - induction (columns df) as [|[c v] cols IH]; cbn; constructor; [|exact IH].
    split; [reflexivity|apply fillna_zero_cells].
Qed.

Lemma valid_floats_all_missing (xs : list float) :
  Forall (fun x => is_nan x = true) xs -> valid_floats (FloatArr xs) = [].
Proof.
  induction 1 as [|x xs Hx _ IH]; cbn; [reflexivity|].
  rewrite Hx. exact IH.
Qed.

Lemma mean_all_missing (xs : list float) :
  Forall (fun x => is_nan x = true) xs -> is_nan (mean (FloatArr xs)) = true.
Proof.
  intros H. unfold mean. rewrite (valid_floats_all_missing _ H). reflexivity.
Qed.

Lemma median_all_missing (xs : list float) :
  Forall (fun x => is_nan x = true) xs -> is_nan (median (FloatArr xs)) = true.
Proof.
  intros H. unfold median. rewrite (valid_floats_all_missing _ H). reflexivity.
Qed.

Lemma fillna_all_missing (xs : list float) (value : float) :
  is_nan value = true ->
  Forall (fun x => is_nan x = true) xs ->
  exists ys, fillna (FloatArr xs) value = FloatArr ys /\
             List.length ys = List.length xs /\
             Forall (fun y => is_nan y = true) ys.
Proof.
  intros Hv Hxs. eexists. split; [reflexivity|]. split; [apply length_map|].
  apply Forall_map. eapply Forall_impl; [|exact Hxs].
  intros x Hx; cbn. rewrite Hx. exact Hv.
Qed.

(** The loop of [fill_mean] and [fill_median] leaves an all-missing float
    column all missing, when the statistic of such a column is missing. *)
Lemma fill_with_all_missing (stat : values -> float) (c : string) :
  (forall zs, Forall (fun x => is_nan x = true) zs -> is_nan (stat (FloatArr zs)) = true) ->
  forall (names : list string) (df : DataFrame) (xs : list float),
    getitem df c = Some (FloatArr xs) ->
    Forall (fun x => is_nan x = true) xs ->
    exists ys, getitem (fill_with stat names df) c = Some (FloatArr ys) /\
               List.length ys = List.length xs /\
               Forall (fun y => is_nan y = true) ys.
Proof.
  intros Hstat. unfold fill_with.
  induction names as [|col names IH]; intros df xs Hc Hxs; cbn.
  - exists xs. auto.
  - destruct (getitem df col) as [v|] eqn:Hv; [|apply IH; assumption].
    destruct (String.eqb c col) eqn:Hcc.
    + apply String.eqb_eq in Hcc; subst col.
      rewrite Hc in Hv. injection Hv as <-.
      destruct (fillna_all_missing xs (stat (FloatArr xs)) (Hstat _ Hxs) Hxs)
        as (ys & Hys & Hlen & Hnan).
      destruct (IH (setitem df c (fillna (FloatArr xs) (stat (FloatArr xs)))) ys)
        as (zs & Hzs & Hlen' & Hnan'); [|exact Hnan|].
      * rewrite getitem_setitem, String.eqb_refl, Hys. reflexivity.
      * exists zs. repeat split; [exact Hzs|congruence|exact Hnan'].
    + apply IH; [|exact Hxs]. rewrite getitem_setitem, Hcc. exact Hc.
Qed.

(** C10.  For every table with a float column whose values are all missing,
    the handler with strategy [fill_mean] or [fill_median] leaves that column
    entirely missing: the statistic of such a column is itself the missing
    marker. *)
Theorem fill_statistic_keeps_all_missing (df : DataFrame) (strategy c : string)
  (xs : list float) :
  strategy = "fill_mean" \/ strategy = "fill_median" ->
  getitem df c = Some (FloatArr xs) ->
  Forall (fun x => is_nan x = true) xs ->
  is_nan (mean (FloatArr xs)) = true /\
  is_nan (median (FloatArr xs)) = true /\
  exists out ys,
    handle_missing_values df strategy = ([], Return out) /\
    getitem out c = Some (FloatArr ys) /\
    List.length ys = List.length xs /\
    Forall (fun y => is_nan y = true) ys.
Proof.
  intros Hs Hc Hxs.
  split; [apply mean_all_missing, Hxs|].
  split; [apply median_all_missing, Hxs|].
  destruct Hs as [-> | ->]; unfold handle_missing_values; cbn [String.eqb].
  - destruct (fill_with_all_missing mean c mean_all_missing
                (numeric_columns df) df xs Hc Hxs) as (ys & H1 & H2 & H3).
    exists (fill_with mean (numeric_columns df) df), ys. auto.
  - destruct (fill_with_all_missing median c median_all_missing
                (numeric_columns df) df xs Hc Hxs) as (ys & H1 & H2 & H3).
    exists (fill_with median (numeric_columns df) df), ys. auto.
Qed.

(** The handler on order items without any freight value. *)
Lemma fill_statistic_keeps_all_missing_witness :
  is_nan (mean (FloatArr [nan; nan; nan])) = true /\
  is_nan (median (FloatArr [nan; nan; nan])) = true /\
  exists out ys,
    handle_missing_values items_without_freight "fill_median" = ([], Return out) /\
    getitem out "freight_value" = Some (FloatArr ys) /\
    List.length ys = 3%nat /\
    Forall (fun y => is_nan y = true) ys.
Proof.
  apply (fill_statistic_keeps_all_missing items_without_freight "fill_median"
           "freight_value" [nan; nan; nan]).
  - right. reflexivity.
  - reflexivity.
  - repeat constructor.
Defined.

(** The median fills the one missing price and leaves the freight column
    missing. *)
Lemma fill_median_sample :
  handle_missing_values items_without_freight "fill_median"
  = ([], Return
           (mkDataFrame 3
              [("order_id", ObjectArr [Some (OStr "a1"); Some (OStr "a1"); None]);
               ("price", FloatArr [10%float; 6.25%float; 2.5%float]);
               ("freight_value", FloatArr [nan; nan; nan])])).
Proof. vm_compute. reflexivity. Qed.

(** [drop] and [fill_zero] on [orders_sample]: the undelivered order goes,
    or its missing delivery date becomes the integer zero. *)
Lemma drop_sample :
  handle_missing_values orders_sample "drop"
  = ([], Return
           (mkDataFrame 1
              [("order_id", ObjectArr [Some (OStr "a1")]);
               ("order_purchase_timestamp",
                ObjectArr [Some (OStr "2022-01-01 00:00:00")]);
               ("order_delivered_customer_date",
                ObjectArr [Some (OStr "2022-01-05 00:00:00")]);
               ("order_estimated_delivery_date",
                ObjectArr [Some (OStr "2022-01-10 00:00:00")])])).
Proof. vm_compute. reflexivity. Qed.

Lemma fill_zero_sample :
  exists out,
    handle_missing_values orders_sample "fill_zero" = ([], Return out) /\
    getitem out "order_delivered_customer_date"
    = Some (ObjectArr [Some (OStr "2022-01-05 00:00:00"); Some (OInt 0)]).
Proof. eexists. split; vm_compute; reflexivity. Qed.

(** ** The merger *)

Lemma len_take (idx : list nat) (v : values) : len (take idx v) = List.length idx.
Proof. unfold len. rewrite cells_take. apply length_map. Qed.

Lemma len_take_fill (idx : list (option nat)) (v : values) :
  len (take_fill idx v) = List.length idx.
Proof.
  unfold len. destruct v; cbn; try destruct (forallb is_some idx); cbn;
    rewrite !length_map; reflexivity.
Qed.

Lemma lookup_in (c : string) (v : values) (cols : list (string * values)) :
  lookup c cols = Some v -> In (c, v) cols.
Proof.
  induction cols as [|[d w] cols IH]; cbn; [discriminate|].
  destruct (String.eqb c d) eqn:Hcd.
  - apply String.eqb_eq in Hcd; subst d. intros [= ->]. left; reflexivity.
  - intros H. right. apply IH, H.
Qed.

Lemma well_formed_getitem (df : DataFrame) (c : string) (v : values) :
  well_formed df -> getitem df c = Some v -> len v = nrows df.
Proof.
  unfold well_formed, getitem. intros Hwf Hc.
  rewrite Forall_forall in Hwf. apply (Hwf (c, v)), lookup_in, Hc.
Qed.

(** What a merge that returned has built. *)
Lemma merge_returns (left right : DataFrame) (on : string) (h : how)
  (out : list string) (m : DataFrame) :
  merge left right on h = (out, Return m) ->
  out = [] /\
  well_formed m /\
  exists lk rk,
    getitem left on = Some lk /\ getitem right on = Some rk /\
    nrows m = List.length (join_positions h (cells lk) (cells rk)).
Proof.
  unfold merge.
  destruct (getitem left on) as [lk|]; [|destruct (getitem right on); discriminate].
  destruct (getitem right on) as [rk|]; [|discriminate].
  destruct (compatible_keys lk rk); [|discriminate].
  intros [= <- <-]. split; [reflexivity|]. split.
  - unfold well_formed; cbn [columns nrows]. apply Forall_app. split.
    + apply Forall_map, Forall_forall. intros c _; cbn.
      rewrite len_take. apply length_map.
    + apply Forall_map, Forall_forall. intros c _; cbn.
      rewrite len_take_fill. apply length_map.
  - exists lk, rk. auto.
Qed.

Lemma merge_raises (left right : DataFrame) (on : string) (h : how)
  (out : list string) (e : exn) :
  merge left right on h = (out, Raise e) -> out = [].
Proof.
  unfold merge.
  destruct (getitem left on) as [lk|]; [|destruct (getitem right on); intros [= <- _]; reflexivity].
  destruct (getitem right on) as [rk|]; [|intros [= <- _]; reflexivity].
  destruct (compatible_keys lk rk); [discriminate|].
  intros [= <- _]; reflexivity.
Qed.

Lemma length_flat_map_ge {A B} (f : A -> list B) (l : list A) :
  (forall a, 1 <= List.length (f a))%nat ->
  (List.length l <= List.length (flat_map f l))%nat.
Proof.
  intros Hf. induction l as [|a l IH]; cbn; [lia|].
  rewrite length_app. specialize (Hf a). lia.
Qed.

Lemma length_flat_map_one {A B} (f : A -> list B) (l : list A) :
  (forall a, In a l -> List.length (f a) = 1%nat) ->
  List.length (flat_map f l) = List.length l.
Proof.
  induction l as [|a l IH]; cbn; intros Hf; [reflexivity|].
  rewrite length_app, Hf, IH by auto. reflexivity.
Qed.

(** A left join keeps every left row at least once. *)
Lemma join_left_keeps_rows (lk rk : list cell) :
  (List.length lk <= List.length (join_positions Left lk rk))%nat.
Proof.
  unfold join_positions.
  etransitivity; [|apply length_flat_map_ge].
  - rewrite length_combine, length_seq. lia.
  - intros ic. destruct (matches (snd ic) rk); cbn; lia.
Qed.

(** A many-to-one left join keeps every left row exactly once. *)
Lemma join_left_many_to_one (lk rk : list cell) :
  (forall k, (List.length (matches k rk) <= 1)%nat) ->
  List.length (join_positions Left lk rk) = List.length lk.
Proof.
  intros Huniq. unfold join_positions.
  rewrite length_flat_map_one.
  - rewrite length_combine, length_seq. lia.
  - intros ic _. specialize (Huniq (snd ic)).
    destruct (matches (snd ic) rk) as [|j [|j' js]]; cbn in *; [reflexivity|reflexivity|lia].
Qed.

(** One optional left join of [merge_order_data]. *)
Lemma optional_left_join (merged : DataFrame) (table : option DataFrame)
  (on : string) (out : list string) (m : DataFrame) :
  well_formed merged ->
  match table with
  | Some t => merge merged t on Left
  | None => ret merged
  end = (out, Return m) ->
  out = [] /\ well_formed m /\
  (nrows merged <= nrows m)%nat /\
  (unique_key table on -> nrows m = nrows merged).
Proof.
  intros Hwf. destruct table as [t|].
  - intros H. apply merge_returns in H as (-> & Hwf' & lk & rk & Hl & Hr & Hn).
    pose proof (well_formed_getitem _ _ _ Hwf Hl) as Hlen. unfold len in Hlen.
    repeat split; [exact Hwf'| |].
    + rewrite Hn, <- Hlen. apply join_left_keeps_rows.
    + intros Hu. rewrite Hn, <- Hlen. apply join_left_many_to_one.
      exact (Hu rk Hr).
  - intros [= <- <-]. repeat split; [exact Hwf|lia].
Qed.

(** C3, as the code has it.  Whenever the merger returns, the inner join of
    orders and order_items on the order identifier returns too, and the
    left joins that follow drop no row: the merged table has at least as many
    rows as the inner join.  It has exactly as many, with or without the
    optional tables, when no product identifier matches more than one row of
    the products table and no customer identifier more than one row of the
    customers table; a key listed several times multiplies the rows it
    matches. *)
Theorem merge_order_data_row_count
  (orders order_items : DataFrame) (products customers : option DataFrame)
  (merged : DataFrame) :
  merge_order_data orders order_items products customers = ([], Return merged) ->
  exists joined,
    merge orders order_items "order_id" Inner = ([], Return joined) /\
    (nrows joined <= nrows merged)%nat /\
    (unique_key products "product_id" ->
     unique_key customers "customer_id" ->
     nrows merged = nrows joined).
Proof.
  unfold merge_order_data. intros H.
  destruct (merge orders order_items "order_id" Inner) as [out1 [joined|e]] eqn:H1;
    [|discriminate].
  pose proof (merge_returns _ _ _ _ _ _ H1) as (-> & Hwf1 & _).
  exists joined. split; [reflexivity|].
  unfold bind at 1 in H.
  destruct (match products with
            | Some p => merge joined p "product_id" Left
            | None => ret joined
            end) as [out2 [m2|e]] eqn:H2.
  - pose proof (optional_left_join _ _ _ _ _ Hwf1 H2) as (-> & Hwf2 & Hge2 & Heq2).
    unfold bind at 1 in H.
    destruct (match customers with
              | Some c => merge m2 c "customer_id" Left
              | None => ret m2
              end) as [out3 [m3|e]] eqn:H3.
    + pose proof (optional_left_join _ _ _ _ _ Hwf2 H3) as (-> & Hwf3 & Hge3 & Heq3).
      cbn in H. injection H as <-.
      split; [lia|]. intros Hp Hc. rewrite (Heq3 Hc), (Heq2 Hp). reflexivity.
    + cbn in H. destruct out3; discriminate.
  - cbn in H. destruct out2; discriminate.
Qed.

(** C3 as stated fails: with a product listed twice in the products table,
    the left join on the product identifier adds a row. *)
Lemma merge_order_data_adds_rows :
  exists joined merged,
    merge one_order two_items "order_id" Inner = ([], Return joined) /\
    merge_order_data one_order two_items (Some products_listed_twice) None
    = ([], Return merged) /\
    nrows joined = 2%nat /\ nrows merged = 3%nat.
Proof.
  do 2 eexists. split; [vm_compute; reflexivity|].
  split; [vm_compute; reflexivity|]. split; reflexivity.
Qed.

(** The merger on a catalogue that lists each product once. *)
Lemma merge_order_data_row_count_witness :
  exists joined,
    merge one_order two_items "order_id" Inner = ([], Return joined) /\
    (nrows joined <= nrows merged_sample)%nat /\
    nrows merged_sample = nrows joined.
Proof.
  destruct (merge_order_data_row_count one_order two_items
              (Some products_listed_once) (Some one_customer) merged_sample)
    as (joined & Hjoin & Hge & Heq).
  - vm_compute. reflexivity.
  - exists joined. split; [exact Hjoin|]. split; [exact Hge|].
    apply Heq.
    + intros v Hv k. vm_compute in Hv. injection Hv as <-.
      unfold matches; cbn.
      destruct k as [[[s| | |]|]| | | |[t|]]; cbn; try lia.
      destruct (String.eqb s "p1") eqn:H1; destruct (String.eqb s "p3") eqn:H3;
        cbn; try lia.
      apply String.eqb_eq in H1, H3. congruence.
    + intros v Hv k. vm_compute in Hv. injection Hv as <-.
      unfold matches; cbn. destruct (key_eqb k _); cbn; lia.
Defined.

(** ** The feature extractor *)

Lemma eqb_append_prefix (s a b : string) :
  String.eqb (s ++ a) (s ++ b) = String.eqb a b.
Proof.
  induction s as [|c s IH]; cbn; [reflexivity|].
  rewrite Ascii.eqb_refl. exact IH.
Qed.

Lemma eqb_append_self (s : string) (c : ascii) (a : string) :
  String.eqb (s ++ String c a) s = false.
Proof.
  induction s as [|c' s IH]; cbn; [reflexivity|].
  rewrite Ascii.eqb_refl. exact IH.
Qed.

Lemma eqb_self_append (s : string) (c : ascii) (a : string) :
  String.eqb s (s ++ String c a) = false.
Proof. rewrite String.eqb_sym. apply eqb_append_self. Qed.

Lemma calendar_check_from_spec (fuel : nat) :
  forall n, calendar_check_from fuel n = true ->
            forall k, n <= k < n + Z.of_nat fuel -> calendar_check k = true.
Proof.
  induction fuel as [|fuel IH]; intros n H k Hk; [lia|].
  cbn [calendar_check_from] in H. apply andb_true_iff in H as [H0 H1].
  destruct (Z.eq_dec k n) as [->|Hne]; [exact H0|].
  apply (IH (n + 1) H1). lia.
Qed.

(** The calendar on every day number a timestamp can have. *)
Lemma calendar_check_all :
  calendar_check_from (Z.to_nat 213504) (-106752) = true.
Proof. vm_cast_no_check (eq_refl true). Qed.

Lemma days_of_in_bounds (t : Z) :
  in_bounds t = true -> -106752 <= days_of t < 106752.
Proof.
  unfold in_bounds, days_of, ns_per_day, ns_per_second.
  intros H. apply andb_true_iff in H as [H1 H2].
  apply Z.ltb_lt in H1, H2.
  change (2 ^ 63) with 9223372036854775808 in *.
  split.
  - apply Z.div_le_lower_bound; lia.
  - apply Z.div_lt_upper_bound; lia.
Qed.

Lemma calendar_fields_in_bounds (t : Z) :
  in_bounds t = true -> calendar_fields t.
Proof.
  intros Hb. apply days_of_in_bounds in Hb.
  assert (Hc : calendar_check (days_of t) = true).
  { apply (calendar_check_from_spec _ _ calendar_check_all).
    rewrite Z2Nat.id; lia. }
  unfold calendar_check in Hc.
  unfold calendar_fields, quarter_of, dayofweek_of, year_of, month_of, day_of.
  destruct (civil_from_days (days_of t)) as [[y m] d]; cbn [fst snd].
  repeat (apply andb_true_iff in Hc as [Hc ?]).
  apply Z.eqb_eq in Hc.
  repeat match goal with
         | H : (_ <=? _) = true |- _ => apply Z.leb_le in H
         end.
  split; [exact Hc|]. split; [lia|]. split; [lia|]. split.
  - assert (0 <= (m - 1) / 3 <= 3); [|lia].
    split; [apply Z.div_pos; lia|].
    apply Z.lt_succ_r, Z.div_lt_upper_bound; lia.
  - pose proof (Z.mod_pos_bound (days_of t + 3) 7). lia.
Qed.

Lemma dt_field_present (f : Z -> Z) (ts : list (option Z)) (i : nat) (t : Z) :
  nth_error ts i = Some (Some t) ->
  holds_number (cell_at (dt_field f ts) i) (f t).
Proof.
  intros H. unfold dt_field. destruct (forallb is_some ts); cbn.
  - left. f_equal. apply nth_error_nth.
    rewrite nth_error_map, H. reflexivity.
  - right. f_equal. apply nth_error_nth.
    rewrite nth_error_map, H. reflexivity.
Qed.

Lemma dt_field_missing (f : Z -> Z) (ts : list (option Z)) (i : nat) :
  nth_error ts i = Some None ->
  cell_isna (cell_at (dt_field f ts) i) = true.
Proof.
  intros H. unfold dt_field. destruct (forallb is_some ts) eqn:Hall; cbn.
  - rewrite forallb_forall in Hall.
    apply nth_error_In, Hall in H. discriminate.
  - erewrite nth_error_nth; [|rewrite nth_error_map, H; reflexivity].
    reflexivity.
Qed.

Lemma float_weekday_eqb (w k : Z) :
  0 <= w <= 6 -> k = 5 \/ k = 6 ->
  (float_of_Z w =? float_of_Z k)%float = (w =? k).
Proof.
  intros Hw Hk.
  assert (Hcases : w = 0 \/ w = 1 \/ w = 2 \/ w = 3 \/ w = 4 \/ w = 5 \/ w = 6) by lia.
  destruct Hk as [-> | ->];
    repeat (destruct Hcases as [-> | Hcases]; [vm_compute; reflexivity|]);
    subst w; vm_compute; reflexivity.
Qed.

Lemma dayofweek_range (t : Z) : 0 <= dayofweek_of t <= 6.
Proof.
  unfold dayofweek_of. pose proof (Z.mod_pos_bound (days_of t + 3) 7). lia.
Qed.

Lemma is_weekend_present (ts : list (option Z)) (i : nat) (t : Z) :
  nth_error ts i = Some (Some t) ->
  cell_at (astype_int (isin (dt_field dayofweek_of ts) [5; 6])) i
  = Int (if weekend_day t then 1 else 0).
Proof.
  intros H. unfold dt_field, weekend_day.
  destruct (forallb is_some ts); cbn; f_equal; apply nth_error_nth;
    rewrite !nth_error_map, H; cbn; f_equal.
  - rewrite orb_false_r. reflexivity.
  - change 5%float with (float_of_Z 5). change 6%float with (float_of_Z 6).
    rewrite !float_weekday_eqb by (auto using dayofweek_range).
    rewrite orb_false_r. reflexivity.
Qed.

Lemma is_weekend_missing (ts : list (option Z)) (i : nat) :
  nth_error ts i = Some None ->
  cell_at (astype_int (isin (dt_field dayofweek_of ts) [5; 6])) i = Int 0.
Proof.
  intros H. unfold dt_field.
  destruct (forallb is_some ts) eqn:Hall; cbn.
  - rewrite forallb_forall in Hall.
    apply nth_error_In, Hall in H. discriminate.
  - f_equal. apply nth_error_nth. rewrite !nth_error_map, H. reflexivity.
Qed.

Lemma date_features_of_row (ts : list (option Z)) (i : nat) (t : option Z) :
  nth_error ts i = Some t -> features_of_row (date_features ts) i t.
Proof.
  intros H. unfold features_of_row, date_features. destruct t as [t|].
  - repeat split; try (apply dt_field_present; exact H).
    apply is_weekend_present, H.
  - repeat split; try (apply dt_field_missing; exact H).
    apply is_weekend_missing, H.
Qed.

Lemma contains_false (df : DataFrame) (c : string) :
  contains df c = false -> getitem df c = None.
Proof.
  unfold contains, getitem, column_names.
  induction (columns df) as [|[d v] cols IH]; cbn; [reflexivity|].
  destruct (String.eqb c d); cbn; [discriminate|exact IH].
Qed.

(** What the extractor returns on a datetime column: the frame after the
    six assignments. *)
Lemma extract_date_features_returns (df : DataFrame) (date_column : string)
  (ts : list (option Z)) :
  getitem df date_column = Some (DatetimeArr ts) ->
  extract_date_features df date_column
  = ([], Return (fold_left (fun d sv => setitem d (date_column ++ fst sv) (snd sv))
                   (date_features ts) df)).
Proof.
  intros H. unfold extract_date_features. rewrite H. cbn [is_datetime64_dtype].
  unfold dt. rewrite !getitem_setitem, !eqb_self_append, H. reflexivity.
Qed.

(** C7, as the code has it.  For every table whose date column holds
    timestamps, the extractor returns a table with the six derived columns
    (year, month, day, day-of-week, quarter, is_weekend), the other columns
    and the row count unchanged.  They are six new columns, appended in that
    order, when none of the six labels is a column of the input; a column
    that already has one of the labels is overwritten where it stands.  In
    every row the derived cells are the fields of the timestamp of that row
    (missing at NaT), [is_weekend] is 1 if and only if the day of the week is
    Saturday or Sunday and 0 otherwise (0 at NaT), and the fields of a
    timestamp in bounds are those of its calendar date. *)
Theorem extract_date_features_columns (df : DataFrame) (date_column : string)
  (ts : list (option Z)) :
  getitem df date_column = Some (DatetimeArr ts) ->
  exists out,
    extract_date_features df date_column = ([], Return out) /\
    nrows out = nrows df /\
    (forall suffix v, In (suffix, v) (date_features ts) ->
                      getitem out (date_column ++ suffix) = Some v) /\
    (forall c, (forall suffix v, In (suffix, v) (date_features ts) ->
                                 c <> date_column ++ suffix) ->
               getitem out c = getitem df c) /\
    ((forall suffix v, In (suffix, v) (date_features ts) ->
                       contains df (date_column ++ suffix) = false) ->
     columns out
     = (columns df
        ++ map (fun sv => ((date_column ++ fst sv)%string, snd sv))
             (date_features ts))%list) /\
    (forall i t, nth_error ts i = Some t -> features_of_row (date_features ts) i t) /\
    (forall i t, nth_error ts i = Some (Some t) -> in_bounds t = true ->
                 calendar_fields t).
Proof.
  intros H. eexists. split; [apply extract_date_features_returns, H|].
  cbn [fold_left date_features fst snd].
  split; [reflexivity|]. split; [|split; [|split; [|split]]].
  - intros suffix v Hin. cbn in Hin.
    repeat (destruct Hin as [[= <- <-] | Hin];
            [rewrite !getitem_setitem, !eqb_append_prefix; cbn;
             rewrite ?String.eqb_refl; reflexivity|]).
    destruct Hin.
  - intros c Hc. rewrite !getitem_setitem.
    repeat match goal with
           | |- context [String.eqb c (date_column ++ ?s)] =>
               replace (String.eqb c (date_column ++ s)) with false
                 by (symmetry; apply String.eqb_neq;
                     eapply Hc with (suffix := s); cbn; eauto 10)
           end.
    reflexivity.
  - intros Hfresh.
    assert (Hnone : forall suffix v, In (suffix, v) (date_features ts) ->
                      lookup (date_column ++ suffix) (columns df) = None).
    { intros s v Hin. apply (contains_false df), (Hfresh s v Hin). }
    unfold setitem; cbn [columns nrows map fst snd].
    assert (Hnext : forall suffix v more,
               In (suffix, v) (date_features ts) ->
               lookup (date_column ++ suffix) more = None ->
               assign (date_column ++ suffix) v (columns df ++ more)
               = (columns df ++ (more ++ [((date_column ++ suffix)%string, v)]))%list).
    { intros s v more Hin Hmore. rewrite assign_fresh, <- app_assoc; [reflexivity|].
      rewrite lookup_app_fresh, (Hnone s v Hin). exact Hmore. }
    rewrite <- (app_nil_r (columns df)) at 1.
    do 6 (rewrite Hnext;
          [cbn [app]
          |cbn; auto 10
          |cbn [lookup]; rewrite ?eqb_append_prefix; reflexivity]).
    reflexivity.
  - intros i t Ht. apply date_features_of_row, Ht.
  - intros i t _ Hb. apply calendar_fields_in_bounds, Hb.
Qed.

(** The extractor on [dated]: a Wednesday, a NaT and a Sunday. *)
Lemma extract_date_features_columns_witness :
  exists out,
    extract_date_features dated "d" = ([], Return out) /\
    column_names out
    = ["d"; "n"; "d_year"; "d_month"; "d_day"; "d_dayofweek"; "d_quarter";
       "d_is_weekend"] /\
    getitem out "d_dayofweek" = Some (FloatArr [2%float; nan; 6%float]) /\
    getitem out "d_is_weekend" = Some (IntArr [0; 0; 1]) /\
    calendar_fields 1641686400000000000.
Proof.
  destruct (extract_date_features_columns dated "d"
              [Some 1641340800000000000; None; Some 1641686400000000000]
              eq_refl)
    as (out & Hout & _ & Hget & _ & Hcols & _ & Hcal).
  exists out. split; [exact Hout|]. split.
  - unfold column_names. rewrite Hcols; [reflexivity|].
    intros suffix v Hin. unfold date_features in Hin. cbn [In] in Hin.
    repeat (destruct Hin as [[= <- <-] | Hin]; [reflexivity|]). destruct Hin.
  - split.
    { pose proof (Hget "_dayofweek" _ (or_intror (or_intror (or_intror
                    (or_introl eq_refl))))) as Hd.
      vm_compute in Hd. exact Hd. }
    split.
    { pose proof (Hget "_is_weekend" _ (or_intror (or_intror (or_intror
                    (or_intror (or_intror (or_introl eq_refl))))))) as Hw.
      vm_compute in Hw. exact Hw. }
    apply (Hcal 2%nat); reflexivity.
Defined.

(** C7 as stated fails: on a table that already has a column [d_year], the
    extractor overwrites it, and the output has five columns more than the
    input, not six. *)
Lemma extract_date_features_overwrites :
  exists out,
    extract_date_features dated_with_year "d" = ([], Return out) /\
    List.length (columns dated_with_year) = 2%nat /\
    List.length (columns out) = 7%nat /\
    getitem out "d_year" = Some (IntArr [2022; 2022]).
Proof.
  eexists. split; [vm_compute; reflexivity|]. repeat split.
Qed.

(** ** The table loader *)

Section Loader.

Variable fs : string -> option string.
Variable parse_csv : string -> outcome DataFrame.

Let read := read_csv fs parse_csv.

Lemma read_csv_absent (path : string) :
  fs path = None -> read path = ([], Raise (FileNotFoundError path)).
Proof. unfold read, read_csv. intros ->. reflexivity. Qed.

(** C8, as the code has it.  For every directory in which one of the five
    required files is absent while every file that the loader reads before
    it is read without error, the loader reports the absent file and returns
    the "no result" value: no exception leaves the call and no table is
    returned.  (The handler catches the absence of a file only: a file that
    is there and cannot be read, met before the absent one, ends the call
    with its own exception.) *)
Theorem load_datasets_absent_file (base_path : string)
  (before : list string) (file : string) (after : list string) :
  required_files = (before ++ file :: after)%list ->
  fs (base_path ++ file) = None ->
  (forall g, In g before -> exists df, read (base_path ++ g) = ([], Return df)) ->
  load_datasets fs parse_csv base_path
  = (["Erro ao carregar datasets: "
      ++ str_exn (FileNotFoundError (base_path ++ file))],
     Return None).
Proof.
  intros Hfiles Habsent Hbefore.
  apply read_csv_absent in Habsent.
  unfold read in *. unfold load_datasets, required_files in *.
  destruct before as [|b1 [|b2 [|b3 [|b4 [|b5 before]]]]];
    cbn [app] in Hfiles; injection Hfiles as <-; subst;
    try (destruct before; discriminate).
  - rewrite Habsent. reflexivity.
  - destruct (Hbefore _ (or_introl eq_refl)) as [d1 ->].
    cbn. rewrite Habsent. reflexivity.
  - destruct (Hbefore _ (or_introl eq_refl)) as [d1 ->].
    destruct (Hbefore _ (or_intror (or_introl eq_refl))) as [d2 ->].
    cbn. rewrite Habsent. reflexivity.
  - destruct (Hbefore _ (or_introl eq_refl)) as [d1 ->].
    destruct (Hbefore _ (or_intror (or_introl eq_refl))) as [d2 ->].
    destruct (Hbefore _ (or_intror (or_intror (or_introl eq_refl)))) as [d3 ->].
    cbn. rewrite Habsent. reflexivity.
  - destruct (Hbefore _ (or_introl eq_refl)) as [d1 ->].
    destruct (Hbefore _ (or_intror (or_introl eq_refl))) as [d2 ->].
    destruct (Hbefore _ (or_intror (or_intror (or_introl eq_refl)))) as [d3 ->].
    destruct (Hbefore _ (or_intror (or_intror (or_intror (or_introl eq_refl)))))
      as [d4 ->].
    cbn. rewrite Habsent. reflexivity.
Qed.

End Loader.

(** The loader on a directory without the products file. *)
Lemma load_datasets_absent_file_witness :
  load_datasets disk_without_products header_reader "raw/"
  = (["Erro ao carregar datasets: "
      ++ str_exn (FileNotFoundError ("raw/" ++ "olist_products_dataset.csv"))],
     Return None).
Proof.
  apply (load_datasets_absent_file disk_without_products header_reader "raw/"
           ["olist_orders_dataset.csv"; "olist_order_items_dataset.csv"]
           "olist_products_dataset.csv"
           ["olist_customers_dataset.csv"; "olist_sellers_dataset.csv"]).
  - reflexivity.
  - reflexivity.
  - intros g [<- | [<- | []]]; eexists; vm_compute; reflexivity.
Defined.

(** C8 as stated fails: in a directory whose orders file has no content and
    whose other four files are absent, the loader does not return the "no
    result" value; the exception of the empty file leaves the call. *)
Lemma load_datasets_empty_file_raises :
  disk_with_empty_orders ("raw/" ++ "olist_sellers_dataset.csv") = None /\
  load_datasets disk_with_empty_orders header_reader "raw/"
  = ([], Raise EmptyDataError).
Proof. split; vm_compute; reflexivity. Qed.

(** * Further properties *)

(** ** Date normalization, column by column *)

Lemma column_names_setitem_present (df : DataFrame) (c : string) (v w : values) :
  getitem df c = Some w -> column_names (setitem df c v) = column_names df.
Proof.
  intros H. unfold column_names, setitem; cbn [columns].
  eapply column_names_assign_present, H.
Qed.

Section NormalizationColumns.

Variable parse_datetime : string -> option Z.

Let convert := convert_dates parse_datetime.

(** X1.  Listed columns that the table does not have are skipped: when none of
    the listed columns is in the table, normalization returns the table as
    it is. *)
Theorem convert_dates_absent_columns (df : DataFrame) (date_columns : list string) :
  (forall c, In c date_columns -> contains df c = false) ->
  convert df date_columns = df.
Proof.
  intros H. apply convert_dates_fixed. intros c Hc.
  unfold normalized. rewrite (contains_false df c (H c Hc)). exact I.
Qed.

Lemma convert_dates_body_getitem (df : DataFrame) (col c : string) :
  getitem (convert_dates_body parse_datetime df col) c
  = if String.eqb c col
    then option_map (to_datetime parse_datetime) (getitem df c)
    else getitem df c.
Proof.
  unfold convert_dates_body.
  destruct (String.eqb c col) eqn:Hc.
  - apply String.eqb_eq in Hc; subst c.
    destruct (getitem df col) as [v|] eqn:Hv.
    + rewrite getitem_setitem, String.eqb_refl. reflexivity.
    + rewrite Hv. reflexivity.
  - destruct (getitem df col); [|reflexivity].
    rewrite getitem_setitem, Hc. reflexivity.
Qed.

Lemma convert_dates_body_shape (df : DataFrame) (col : string) :
  column_names (convert_dates_body parse_datetime df col) = column_names df /\
  nrows (convert_dates_body parse_datetime df col) = nrows df.
Proof.
  unfold convert_dates_body.
  destruct (getitem df col) as [v|] eqn:Hv; [|split; reflexivity].
  split; [eapply column_names_setitem_present, Hv|reflexivity].
Qed.

Lemma to_datetime_twice (x : option values) :
  option_map (to_datetime parse_datetime) (option_map (to_datetime parse_datetime) x)
  = option_map (to_datetime parse_datetime) x.
Proof.
  destruct x as [v|]; [|reflexivity]. cbn. f_equal.
  apply to_datetime_fixed, to_datetime_is_datetime.
Qed.

Lemma convert_dates_shape (df : DataFrame) (date_columns : list string) :
  column_names (convert df date_columns) = column_names df /\
  nrows (convert df date_columns) = nrows df.
Proof.
  unfold convert, convert_dates.
  revert df. induction date_columns as [|col cols IH]; intros df; cbn.
  - split; reflexivity.
  - destruct (IH (convert_dates_body parse_datetime df col)) as (Hn & Hr).
    destruct (convert_dates_body_shape df col) as [Hn1 Hr1].
    split; congruence.
Qed.

Lemma convert_dates_getitem (df : DataFrame) (date_columns : list string) (c : string) :
  getitem (convert df date_columns) c
  = if existsb (String.eqb c) date_columns
    then option_map (to_datetime parse_datetime) (getitem df c)
    else getitem df c.
Proof.
  unfold convert, convert_dates.
  revert df. induction date_columns as [|col cols IH]; intros df; cbn.
  - reflexivity.
  - rewrite IH, convert_dates_body_getitem.
    destruct (String.eqb c col); cbn.
    + destruct (existsb (String.eqb c) cols); [apply to_datetime_twice|reflexivity].
    + reflexivity.
Qed.

(** X2.  Normalization keeps the labels, their order and the row count; a listed
    column that the table has becomes [to_datetime] of itself, and every
    other column is the one of the input. *)
Theorem convert_dates_columns (df : DataFrame) (date_columns : list string) :
  column_names (convert df date_columns) = column_names df /\
  nrows (convert df date_columns) = nrows df /\
  forall c,
    getitem (convert df date_columns) c
    = if existsb (String.eqb c) date_columns
      then option_map (to_datetime parse_datetime) (getitem df c)
      else getitem df c.
Proof.
  destruct (convert_dates_shape df date_columns) as [Hn Hr].
  split; [exact Hn|]. split; [exact Hr|].
  intros c. apply convert_dates_getitem.
Qed.

End NormalizationColumns.

Lemma convert_dates_absent_columns_witness :
  convert_dates parse_iso one_order ["order_purchase_timestamp"; "order_approved_at"]
  = one_order.
Proof.
  apply (convert_dates_absent_columns parse_iso one_order).
  intros c [<- | [<- | []]]; reflexivity.
Defined.

(** ** The feature extractor: soft failure, recomputation *)

Lemma extract_date_features_reports (df : DataFrame) (date_column : string) :
  (forall ts, getitem df date_column <> Some (DatetimeArr ts)) ->
  extract_date_features df date_column
  = (["Erro: " ++ date_column ++ " não é uma coluna datetime válida"], Return df).
Proof.
  intros H. unfold extract_date_features.
  destruct (getitem df date_column) as [v|]; [|reflexivity].
  destruct v; try reflexivity. exfalso. eapply H. reflexivity.
Qed.

(** X3.  When the named column is absent, or is not a datetime column (a date
    column still held as text, for instance), the extractor reports it and
    returns the table as it is. *)
Theorem extract_date_features_not_datetime (df : DataFrame) (date_column : string) :
  (forall ts, getitem df date_column <> Some (DatetimeArr ts)) ->
  extract_date_features df date_column
  = (["Erro: " ++ date_column ++ " não é uma coluna datetime válida"], Return df).
Proof. apply extract_date_features_reports. Qed.

Lemma extract_date_features_not_datetime_witness :
  extract_date_features orders_sample "order_purchase_timestamp"
  = (["Erro: " ++ "order_purchase_timestamp" ++ " não é uma coluna datetime válida"],
     Return orders_sample).
Proof.
  apply (extract_date_features_not_datetime orders_sample "order_purchase_timestamp").
  intros ts. discriminate.
Defined.

(** The frame after the six assignments has each derived column, and the
    date column it was read from. *)
Lemma date_features_assigned (df : DataFrame) (date_column : string)
  (ts : list (option Z)) :
  getitem df date_column = Some (DatetimeArr ts) ->
  let out := fold_left (fun d sv => setitem d (date_column ++ fst sv) (snd sv))
               (date_features ts) df in
  getitem out date_column = Some (DatetimeArr ts) /\
  Forall (fun sv => getitem out (date_column ++ fst sv) = Some (snd sv))
         (date_features ts).
Proof.
  intros H. cbn [fold_left date_features fst snd]. split.
  - rewrite !getitem_setitem, !eqb_self_append. exact H.
  - repeat constructor; cbn [fst snd];
      rewrite !getitem_setitem, !eqb_append_prefix; cbn;
      rewrite ?String.eqb_refl; reflexivity.
Qed.

Lemma fold_setitem_same (df : DataFrame) (date_column : string)
  (features : list (string * values)) :
  Forall (fun sv => getitem df (date_column ++ fst sv) = Some (snd sv)) features ->
  fold_left (fun d sv => setitem d (date_column ++ fst sv) (snd sv)) features df = df.
Proof.
  induction 1 as [|sv features Hsv _ IH]; cbn; [reflexivity|].
  rewrite (setitem_same _ _ _ Hsv). exact IH.
Qed.

(** X4.  Extracting the features again changes nothing: on its own output the
    extractor prints what it printed and returns that output. *)
Theorem extract_date_features_idempotent (df out : DataFrame) (date_column : string)
  (printed : list string) :
  extract_date_features df date_column = (printed, Return out) ->
  extract_date_features out date_column = (printed, Return out).
Proof.
  intros H.
  destruct (getitem df date_column) as [v|] eqn:Hv.
  - destruct v as [xs|xs|xs|xs|ts];
      try (rewrite extract_date_features_reports in H
             by (intros ts; rewrite Hv; discriminate);
           injection H as <- <-;
           apply extract_date_features_reports;
           intros ts; rewrite Hv; discriminate).
    rewrite (extract_date_features_returns _ _ _ Hv) in H.
    destruct (date_features_assigned _ _ _ Hv) as [Hcol Hall].
    set (out1 := fold_left _ _ _) in *. clearbody out1.
    injection H as <- <-.
    rewrite (extract_date_features_returns _ _ _ Hcol).
    rewrite (fold_setitem_same _ _ _ Hall). reflexivity.
  - rewrite extract_date_features_reports in H
      by (intros ts; rewrite Hv; discriminate).
    injection H as <- <-.
    apply extract_date_features_reports.
    intros ts; rewrite Hv; discriminate.
Qed.

Lemma extract_date_features_idempotent_witness :
  exists out,
    extract_date_features dated "d" = ([], Return out) /\
    extract_date_features out "d" = ([], Return out).
Proof.
  destruct (extract_date_features dated "d") as [printed [out|e]] eqn:H.
  - vm_compute in H. injection H as <- <-.
    eexists. split; [reflexivity|].
    apply (extract_date_features_idempotent dated _ "d" []).
    vm_compute. reflexivity.
  - vm_compute in H. discriminate.
Defined.

(** ** The missing-value handler: strategies *)

(** X6.  A strategy name that is none of the four is answered with a warning and
    the result of [drop]. *)
Theorem handle_missing_values_unknown_strategy (df : DataFrame) (strategy : string) :
  ~ In strategy ["drop"; "fill_mean"; "fill_median"; "fill_zero"] ->
  exists out,
    handle_missing_values df "drop" = ([], Return out) /\
    handle_missing_values df strategy
    = ([unknown_strategy_warning strategy], Return out).
Proof.
  intros H. exists (dropna df). split; [reflexivity|].
  unfold handle_missing_values.
  repeat match goal with
         | |- context [String.eqb strategy ?s] =>
             replace (String.eqb strategy s) with false
               by (symmetry; apply String.eqb_neq; intros ->; apply H; cbn; auto)
         end.
  reflexivity.
Qed.

Lemma handle_missing_values_unknown_strategy_witness :
  exists out,
    handle_missing_values orders_sample "drop" = ([], Return out) /\
    handle_missing_values orders_sample "fill_mode"
    = ([unknown_strategy_warning "fill_mode"], Return out).
Proof.
  apply (handle_missing_values_unknown_strategy orders_sample "fill_mode").
  cbn. intros [H | [H | [H | [H | []]]]]; discriminate.
Defined.

(** X7.  [drop] keeps exactly the rows without a missing cell, in the order of
    the input: the output has no more rows than the input. *)
Theorem drop_keeps_complete_rows (df : DataFrame) :
  exists out,
    handle_missing_values df "drop" = ([], Return out) /\
    rows out = filter (forallb (fun c => negb (cell_isna c))) (rows df) /\
    nrows out = List.length (rows out) /\
    (nrows out <= nrows df)%nat.
Proof.
  exists (dropna df). split; [reflexivity|].
  split; [apply dropna_rows|].
  assert (Hn : nrows (dropna df) = List.length (rows (dropna df))).
  { unfold rows. rewrite length_map, length_seq. reflexivity. }
  split; [exact Hn|].
  rewrite Hn, dropna_rows.
  etransitivity; [apply filter_length_le|].
  unfold rows. rewrite length_map, length_seq. lia.
Qed.

Lemma cell_at_in_cells (v : values) (i : nat) :
  (i < len v)%nat -> In (cell_at v i) (cells v).
Proof.
  unfold len. destruct v; cbn; intros Hi;
    rewrite <- map_nth; apply nth_In; exact Hi.
Qed.

Lemma map_nth_seq_id {A} (l : list A) (d : A) :
  map (fun i => nth i l d) (seq 0 (List.length l)) = l.
Proof.
  rewrite (map_nth_seq (fun x => x) l d). apply map_id.
Qed.

Lemma take_all (v : values) (n : nat) : len v = n -> take (seq 0 n) v = v.
Proof.
  unfold len. intros <-. destruct v; cbn; rewrite length_map;
    rewrite map_nth_seq_id; reflexivity.
Qed.

Lemma take_rows_all (df : DataFrame) :
  well_formed df -> take_rows (seq 0 (nrows df)) df = df.
Proof.
  intros Hwf. destruct df as [n cols]. unfold take_rows, well_formed in *.
  cbn [nrows columns] in *. rewrite length_seq. f_equal.
  rewrite <- (map_id cols) at 2. apply map_ext_in.
  intros [c v] Hin. cbn. f_equal.
  rewrite Forall_forall in Hwf. apply take_all, (Hwf (c, v) Hin).
Qed.

Lemma filter_all {A} (f : A -> bool) (l : list A) :
  (forall x, In x l -> f x = true) -> filter f l = l.
Proof.
  induction l as [|x l IH]; cbn; intros H; [reflexivity|].
  rewrite (H x) by auto. f_equal. apply IH. auto.
Qed.

Lemma dropna_complete (df : DataFrame) :
  well_formed df -> complete df -> dropna df = df.
Proof.
  intros Hwf Hc. unfold dropna.
  rewrite filter_all; [apply take_rows_all, Hwf|].
  intros i Hi. apply in_seq in Hi. apply forallb_forall.
  intros x Hx. unfold row in Hx. apply in_map_iff in Hx as ([c v] & <- & Hin).
  cbn [snd]. apply negb_true_iff.
  pose proof (Hc c v Hin) as Hv. unfold no_missing in Hv.
  rewrite Forall_forall in Hv. apply Hv, cell_at_in_cells.
  unfold well_formed in Hwf. rewrite Forall_forall in Hwf.
  pose proof (Hwf (c, v) Hin) as Hlen. cbn [snd] in Hlen. lia.
Qed.

Lemma fillna_no_missing (v : values) (value : float) :
  no_missing v -> fillna v value = v.
Proof.
  destruct v as [xs|xs|xs|xs|xs]; try reflexivity.
  unfold no_missing; cbn. intros H. f_equal.
  rewrite <- (map_id xs) at 2. apply map_ext_in. intros x Hx.
  rewrite Forall_forall in H. specialize (H (Flt x) (in_map Flt _ _ Hx)).
  cbn in H. rewrite H. reflexivity.
Qed.

Lemma fillna_zero_no_missing_fixed (v : values) :
  no_missing v -> fillna_zero v = v.
Proof.
  unfold no_missing. destruct v as [xs|xs|xs|xs|xs]; cbn; try reflexivity;
    intros H; rewrite Forall_forall in H.
  - f_equal. rewrite <- (map_id xs) at 2. apply map_ext_in. intros o Ho.
    specialize (H (Obj o) (in_map Obj _ _ Ho)). destruct o; [reflexivity|discriminate].
  - f_equal. rewrite <- (map_id xs) at 2. apply map_ext_in. intros x Hx.
    specialize (H (Flt x) (in_map Flt _ _ Hx)). cbn in H. rewrite H. reflexivity.
  - replace (forallb is_some xs) with true; [reflexivity|].
    symmetry. apply forallb_forall. intros o Ho.
    specialize (H (Dt o) (in_map Dt _ _ Ho)). destruct o; [reflexivity|discriminate].
Qed.

Lemma fill_with_complete (stat : values -> float) (names : list string)
  (df : DataFrame) :
  complete df -> fill_with stat names df = df.
Proof.
  intros Hc. unfold fill_with.
  induction names as [|col names IH]; cbn; [reflexivity|].
  destruct (getitem df col) as [v|] eqn:Hv; [|exact IH].
  rewrite fillna_no_missing by (apply (Hc col), lookup_in, Hv).
  rewrite (setitem_same _ _ _ Hv). exact IH.
Qed.

(** X8.  A table that has one cell per row in every column and no missing value
    comes back unchanged from the handler, whatever the strategy (an unknown
    one still prints its warning). *)
Theorem handle_missing_values_complete (df : DataFrame) (strategy : string) :
  well_formed df -> complete df ->
  exists printed, handle_missing_values df strategy = (printed, Return df).
Proof.
  intros Hwf Hc. unfold handle_missing_values.
  destruct (String.eqb strategy "drop");
    [rewrite dropna_complete by assumption; eexists; reflexivity|].
  destruct (String.eqb strategy "fill_mean");
    [rewrite fill_with_complete by assumption; eexists; reflexivity|].
  destruct (String.eqb strategy "fill_median");
    [rewrite fill_with_complete by assumption; eexists; reflexivity|].
  destruct (String.eqb strategy "fill_zero").
  - eexists. unfold ret. do 2 f_equal.
    destruct df as [n cols]. unfold fillna_zero_frame; cbn [nrows columns].
    f_equal. rewrite <- (map_id cols) at 2. apply map_ext_in.
    intros [c v] Hin. cbn. f_equal.
    apply fillna_zero_no_missing_fixed, (Hc c v Hin).
  - rewrite dropna_complete by assumption. eexists. reflexivity.
Qed.

Lemma handle_missing_values_complete_witness :
  exists printed,
    handle_missing_values two_items "fill_mean" = (printed, Return two_items).
Proof.
  apply (handle_missing_values_complete two_items "fill_mean").
  - repeat constructor.
  - intros c v [[= <- <-] | [[= <- <-] | [[= <- <-] | []]]];
      repeat constructor.
Defined.

Lemma fills_refl (v : values) : fills v v.
Proof.
  destruct v as [xs|xs|xs|xs|xs]; cbn; try reflexivity.
  exists xs. split; [reflexivity|].
  induction xs; constructor; auto.
Qed.

Lemma fills_fillna (v : values) (value : float) : fills v (fillna v value).
Proof.
  destruct v as [xs|xs|xs|xs|xs]; cbn; try reflexivity.
  eexists. split; [reflexivity|].
  induction xs as [|x xs IH]; cbn; constructor; [|exact IH].
  intros ->. reflexivity.
Qed.

Lemma fills_trans (u v w : values) : fills u v -> fills v w -> fills u w.
Proof.
  destruct u as [xs|xs|xs|xs|xs]; cbn; try (intros ->; auto; fail).
  intros (ys & -> & Hxy) (zs & -> & Hyz). exists zs. split; [reflexivity|].
  revert zs Hyz. induction Hxy as [|x y xs ys Hx _ IH]; intros zs Hyz;
    inversion Hyz as [|y' z ys' zs' Hy Hrest]; subst; constructor.
  - intros Hnan. rewrite Hy; rewrite (Hx Hnan); [reflexivity|exact Hnan].
  - apply IH, Hrest.
Qed.

(** The loop of [fill_mean] and [fill_median] keeps the labels and the row
    count, and only fills. *)
Lemma fill_with_fills (stat : values -> float) (df : DataFrame) (names : list string) :
  forall d,
    (column_names d = column_names df /\ nrows d = nrows df /\
     forall c v, getitem df c = Some v -> exists w, getitem d c = Some w /\ fills v w) ->
    column_names (fill_with stat names d) = column_names df /\
    nrows (fill_with stat names d) = nrows df /\
    forall c v, getitem df c = Some v ->
                exists w, getitem (fill_with stat names d) c = Some w /\ fills v w.
Proof.
  unfold fill_with. induction names as [|col names IH]; intros d Hd; cbn; [exact Hd|].
  destruct (getitem d col) as [u|] eqn:Hu; [|apply IH, Hd].
  apply IH. destruct Hd as (Hn & Hr & Hg).
  split; [rewrite (column_names_setitem_present _ _ _ _ Hu); exact Hn|].
  split; [exact Hr|].
  intros c v Hv. destruct (Hg c v Hv) as (w & Hw & Hfill).
  rewrite getitem_setitem. destruct (String.eqb c col) eqn:Hc.
  - apply String.eqb_eq in Hc; subst c. rewrite Hu in Hw. injection Hw as <-.
    eexists. split; [reflexivity|].
    eapply fills_trans; [exact Hfill|apply fills_fillna].
  - exists w. auto.
Qed.

(** X9.  [fill_mean] and [fill_median] keep the labels, their order and the row
    count.  A float column keeps its length and every valid cell; every
    other column, the text and date columns with their missing markers
    among them, is the one of the input. *)
Theorem fill_statistic_only_fills (df : DataFrame) (strategy : string) :
  strategy = "fill_mean" \/ strategy = "fill_median" ->
  exists out,
    handle_missing_values df strategy = ([], Return out) /\
    column_names out = column_names df /\
    nrows out = nrows df /\
    forall c v, getitem df c = Some v ->
                exists w, getitem out c = Some w /\ fills v w.
Proof.
  assert (Hstart : column_names df = column_names df /\ nrows df = nrows df /\
                   forall c v, getitem df c = Some v ->
                               exists w, getitem df c = Some w /\ fills v w).
  { repeat split. intros c v Hv. exists v. split; [exact Hv|apply fills_refl]. }
  intros [-> | ->]; eexists; (split; [reflexivity|]);
    apply fill_with_fills, Hstart.
Qed.

Lemma fill_statistic_only_fills_witness :
  exists out,
    handle_missing_values items_without_freight "fill_mean" = ([], Return out) /\
    column_names out = column_names items_without_freight /\
    nrows out = nrows items_without_freight /\
    forall c v, getitem items_without_freight c = Some v ->
                exists w, getitem out c = Some w /\ fills v w.
Proof.
  apply (fill_statistic_only_fills items_without_freight "fill_mean").
  left. reflexivity.
Defined.

(** ** The delivery-time calculator: absent columns, recomputation *)

Lemma contains_true (df : DataFrame) (c : string) :
  contains df c = true -> exists v, getitem df c = Some v.
Proof.
  unfold contains, getitem, column_names.
  induction (columns df) as [|[d v] cols IH]; cbn; [discriminate|].
  destruct (String.eqb c d); cbn; [eauto|exact IH].
Qed.

Section DeliveryTimeComposition.

Variable parse_datetime : string -> option Z.

Let calculate := calculate_delivery_time parse_datetime.
Let convert := convert_dates parse_datetime.

(** On a frame whose date columns, as far as it has them, are datetime
    columns, the loop changes nothing: it reports the first absent column
    and returns the frame, or hands the frame over. *)
Lemma check_date_cols_normalized (rest : DataFrame -> Py DataFrame)
  (df : DataFrame) (cols : list string) :
  (forall c, In c cols -> normalized df c) ->
  (exists c, In c cols /\ getitem df c = None /\
             check_date_cols parse_datetime cols df rest
             = ([absent_column_report c], Return df))
  \/
  ((forall c, In c cols -> exists ts, getitem df c = Some (DatetimeArr ts)) /\
   check_date_cols parse_datetime cols df rest = rest df).
Proof.
  induction cols as [|col cols IH]; intros Hnorm; cbn [check_date_cols].
  - right. split; [intros c []|reflexivity].
  - pose proof (Hnorm col (or_introl eq_refl)) as Hcol. unfold normalized in Hcol.
    destruct (getitem df col) as [v|] eqn:Hv.
    + destruct v; try discriminate. cbn [is_datetime64_dtype negb].
      destruct IH as [(c & Hin & Hc & Hrun) | (Hall & Hrun)].
      * intros c Hc. apply Hnorm. right; exact Hc.
      * left. exists c. split; [right; exact Hin|]. split; assumption.
      * right. split; [|exact Hrun].
        intros c [<- | Hin]; [eauto|apply Hall, Hin].
    + left. exists col. split; [left; reflexivity|]. split; [exact Hv|reflexivity].
Qed.

(** X12.  In the order of the pipeline, normalization first, an absent date
    column costs nothing: when the table lacks one of the three date columns
    and the others were normalized, the calculator reports the absent column
    and returns exactly the normalized table. *)
Theorem calculate_delivery_time_after_convert_absent
  (orders : DataFrame) (date_columns : list string) :
  (forall c, In c date_cols -> In c date_columns) ->
  (exists c, In c date_cols /\ contains orders c = false) ->
  exists c,
    In c date_cols /\ contains orders c = false /\
    calculate (convert orders date_columns)
    = ([absent_column_report c], Return (convert orders date_columns)).
Proof.
  intros Hlisted (c0 & Hin0 & Habs0).
  unfold calculate, calculate_delivery_time.
  match goal with
  | |- context [check_date_cols _ _ _ ?rest] =>
      destruct (check_date_cols_normalized rest
                  (convert orders date_columns) date_cols)
        as [(c & Hin & Hc & Hrun) | (Hall & _)]
  end.
  - intros c Hc. apply convert_dates_normalizes, Hlisted, Hc.
  - exists c. split; [exact Hin|]. split; [|exact Hrun].
    unfold convert in Hc. rewrite convert_dates_getitem in Hc.
    unfold contains, column_names.
    destruct (existsb (String.eqb c) (map fst (columns orders))) eqn:Hex;
      [|reflexivity].
    apply contains_true in Hex as [v Hv]. rewrite Hv in Hc.
    destruct (existsb (String.eqb c) date_columns); discriminate.
  - exfalso. destruct (Hall c0 Hin0) as [ts Hts].
    unfold convert in Hts. rewrite convert_dates_getitem in Hts.
    rewrite (contains_false orders c0 Habs0) in Hts.
    destruct (existsb (String.eqb c0) date_columns); discriminate.
Qed.

(** With its three date columns present, the loop does what normalization
    of those columns does. *)
Lemma check_date_cols_present (rest : DataFrame -> Py DataFrame)
  (cols : list string) :
  forall df,
    (forall c, In c cols -> exists v, getitem df c = Some v) ->
    check_date_cols parse_datetime cols df rest = rest (convert df cols).
Proof.
  unfold convert, convert_dates.
  induction cols as [|col cols IH]; intros df Hall; cbn [check_date_cols fold_left];
    [reflexivity|].
  destruct (Hall col (or_introl eq_refl)) as [v Hv]. rewrite Hv.
  assert (Hbody : (if negb (is_datetime64_dtype v)
                   then setitem df col (to_datetime parse_datetime v)
                   else df)
                  = convert_dates_body parse_datetime df col).
  { unfold convert_dates_body. rewrite Hv.
    destruct (is_datetime64_dtype v) eqn:Hdt; cbn [negb]; [|reflexivity].
    rewrite (to_datetime_fixed _ _ Hdt). symmetry. apply setitem_same, Hv. }
  rewrite Hbody. apply IH.
  intros c Hc. destruct (Hall c (or_intror Hc)) as [w Hw].
  rewrite convert_dates_body_getitem, Hw.
  destruct (String.eqb c col); cbn; eauto.
Qed.

(** The first of the listed columns that the frame does not have. *)
Lemma first_absent (df : DataFrame) (cols : list string) :
  (exists c, In c cols /\ getitem df c = None) ->
  exists before c after,
    cols = (before ++ c :: after)%list /\
    (forall b, In b before -> exists v, getitem df b = Some v) /\
    getitem df c = None.
Proof.
  induction cols as [|col cols IH]; intros (c & Hin & Habs); [destruct Hin|].
  destruct (getitem df col) as [v|] eqn:Hv.
  - destruct Hin as [-> | Hin]; [congruence|].
    destruct IH as (before & c0 & after & -> & Hbefore & Hc0); [eauto|].
    exists (col :: before), c0, after. split; [reflexivity|].
    split; [|exact Hc0]. intros b [<- | Hb]; [eauto|apply Hbefore, Hb].
  - exists [], col, cols. split; [reflexivity|].
    split; [intros b []|exact Hv].
Qed.

(** Past the columns it has, the loop goes on from the frame in which they
    are normalized. *)
Lemma check_date_cols_app (rest : DataFrame -> Py DataFrame)
  (before cols : list string) :
  forall df,
    (forall c, In c before -> exists v, getitem df c = Some v) ->
    check_date_cols parse_datetime (before ++ cols) df rest
    = check_date_cols parse_datetime cols (convert df before) rest.
Proof.
  unfold convert, convert_dates.
  induction before as [|col before IH]; intros df Hall;
    cbn [app check_date_cols fold_left]; [reflexivity|].
  destruct (Hall col (or_introl eq_refl)) as [v Hv]. rewrite Hv.
  assert (Hbody : (if negb (is_datetime64_dtype v)
                   then setitem df col (to_datetime parse_datetime v)
                   else df)
                  = convert_dates_body parse_datetime df col).
  { unfold convert_dates_body. rewrite Hv.
    destruct (is_datetime64_dtype v) eqn:Hdt; cbn [negb]; [|reflexivity].
    rewrite (to_datetime_fixed _ _ Hdt). symmetry. apply setitem_same, Hv. }
  rewrite Hbody. apply IH.
  intros c Hc. destruct (Hall c (or_intror Hc)) as [w Hw].
  rewrite convert_dates_body_getitem, Hw.
  destruct (String.eqb c col); cbn; eauto.
Qed.

(** X11.  When the table lacks one of the three date columns, the calculator
    stops at the first one it lacks, in the order purchase, delivered,
    estimated: the column it names in its report is absent from the input,
    and every date column before it is present.  What it returns is the
    input with the date columns before the absent one normalized by
    [to_datetime]: the same labels and row count, every other column as it
    was, no result column added, nothing raised. *)
Theorem calculate_delivery_time_reports_absent_column (orders : DataFrame) :
  (exists c, In c date_cols /\ getitem orders c = None) ->
  exists before c after,
    date_cols = (before ++ c :: after)%list /\
    (forall b, In b before -> exists v, getitem orders b = Some v) /\
    getitem orders c = None /\
    calculate orders
    = ([absent_column_report c], Return (convert orders before)) /\
    column_names (convert orders before) = column_names orders /\
    nrows (convert orders before) = nrows orders /\
    (forall c',
        getitem (convert orders before) c'
        = if existsb (String.eqb c') before
          then option_map (to_datetime parse_datetime) (getitem orders c')
          else getitem orders c').
Proof.
  intros Habsent.
  destruct (first_absent orders date_cols Habsent)
    as (before & c & after & Hsplit & Hbefore & Hc).
  exists before, c, after.
  split; [exact Hsplit|]. split; [exact Hbefore|]. split; [exact Hc|].
  destruct (convert_dates_shape parse_datetime orders before) as [Hn Hr].
  split; [|split; [exact Hn|split; [exact Hr|]]].
  - unfold calculate, calculate_delivery_time. rewrite Hsplit.
    rewrite check_date_cols_app by exact Hbefore.
    cbn [check_date_cols].
    assert (Hd : getitem (convert orders before) c = None).
    { unfold convert. rewrite convert_dates_getitem, Hc.
      destruct (existsb (String.eqb c) before); reflexivity. }
    rewrite Hd. reflexivity.
  - intros c'. apply convert_dates_getitem.
Qed.

(** X13.  Normalizing the three date columns beforehand does not change what the
    calculator does on a table that has them: the same lines, the same
    table or the same exception. *)
Theorem calculate_delivery_time_after_convert (orders : DataFrame) :
  (forall c, In c date_cols -> contains orders c = true) ->
  calculate (convert orders date_cols) = calculate orders.
Proof.
  intros Hall. unfold calculate, calculate_delivery_time.
  rewrite !check_date_cols_present.
  - unfold convert. rewrite convert_dates_fixed; [reflexivity|].
    intros c Hc. apply convert_dates_normalizes, Hc.
  - intros c Hc. apply contains_true, Hall, Hc.
  - intros c Hc. destruct (contains_true _ _ (Hall c Hc)) as [v Hv].
    unfold convert. rewrite convert_dates_getitem, Hv.
    destruct (existsb (String.eqb c) date_cols); cbn; eauto.
Qed.

(** X14.  Computing the delivery times again changes nothing: on the table it
    returned without a report, the calculator returns that table. *)
Theorem calculate_delivery_time_idempotent (orders df : DataFrame) :
  calculate orders = ([], Return df) ->
  calculate df = ([], Return df).
Proof.
  intros H.
  destruct (calculate_delivery_time_returns _ _ _ H)
    as (P & D & E & td1 & td2 & HP & HD & HE & H1 & H2 & Hdays & Hest & Hdiff & Hflag).
  unfold calculate, calculate_delivery_time.
  match goal with
  | |- context [check_date_cols _ _ _ ?rest] =>
      destruct (check_date_cols_normalized rest df date_cols)
        as [(c & Hin & Hc & _) | (_ & ->)]
  end.
  - intros c [<- | [<- | [<- | []]]]; unfold normalized;
      rewrite ?HP, ?HD, ?HE; reflexivity.
  - exfalso. destruct Hin as [<- | [<- | [<- | []]]]; congruence.
  - unfold timedelta, bind. rewrite HD, HP, H1.
    replace (setitem df "delivery_time_days"
               (div_scalar (total_seconds td1) (24 * 3600))) with df
      by (symmetry; apply setitem_same; exact Hdays).
    rewrite HE, HP, H2.
    replace (setitem df "estimated_delivery_time_days"
               (div_scalar (total_seconds td2) (24 * 3600))) with df
      by (symmetry; apply setitem_same; exact Hest).
    rewrite Hdays, Hest. cbn [sub_floats].
    match goal with
    | |- context [setitem df "delivery_time_difference" ?v] =>
        replace (setitem df "delivery_time_difference" v) with df
          by (symmetry; apply setitem_same; exact Hdiff)
    end.
    rewrite Hdiff. cbn [le_scalar].
    match goal with
    | |- context [setitem df "delivered_on_time" ?v] =>
        replace (setitem df "delivered_on_time" v) with df
          by (symmetry; apply setitem_same; exact Hflag)
    end.
    reflexivity.
Qed.

End DeliveryTimeComposition.

(** On a table without the delivered column: the report names that column,
    and the purchase column, the one before it, comes back normalized. *)
Lemma calculate_delivery_time_reports_absent_column_witness :
  exists before c after,
    date_cols = (before ++ c :: after)%list /\
    (forall b, In b before ->
               exists v, getitem orders_without_delivered b = Some v) /\
    getitem orders_without_delivered c = None /\
    calculate_delivery_time parse_iso orders_without_delivered
    = ([absent_column_report c],
       Return (convert_dates parse_iso orders_without_delivered before)) /\
    column_names (convert_dates parse_iso orders_without_delivered before)
    = column_names orders_without_delivered /\
    nrows (convert_dates parse_iso orders_without_delivered before)
    = nrows orders_without_delivered /\
    (forall c',
        getitem (convert_dates parse_iso orders_without_delivered before) c'
        = if existsb (String.eqb c') before
          then option_map (to_datetime parse_iso)
                 (getitem orders_without_delivered c')
          else getitem orders_without_delivered c').
Proof.
  apply (calculate_delivery_time_reports_absent_column parse_iso
           orders_without_delivered).
  exists "order_delivered_customer_date". split; [cbn; auto|reflexivity].
Defined.

Lemma calculate_delivery_time_absent_delivered_sample :
  calculate_delivery_time parse_iso orders_without_delivered
  = ([absent_column_report "order_delivered_customer_date"],
     Return (convert_dates parse_iso orders_without_delivered
               ["order_purchase_timestamp"])).
Proof. vm_compute. reflexivity. Qed.

Lemma calculate_delivery_time_after_convert_witness :
  calculate_delivery_time parse_iso (convert_dates parse_iso orders_sample date_cols)
  = calculate_delivery_time parse_iso orders_sample.
Proof.
  apply (calculate_delivery_time_after_convert parse_iso orders_sample).
  intros c [<- | [<- | [<- | []]]]; reflexivity.
Defined.

Lemma calculate_delivery_time_idempotent_witness :
  calculate_delivery_time parse_iso orders_sample_timed
  = ([], Return orders_sample_timed).
Proof.
  apply (calculate_delivery_time_idempotent parse_iso orders_sample).
  vm_compute. reflexivity.
Defined.

(** ** The loader: success, and the exceptions it lets through *)

Section LoaderPaths.

Variable fs : string -> option string.
Variable parse_csv : string -> outcome DataFrame.

Let read := read_csv fs parse_csv.
Let load := load_datasets fs parse_csv.

Lemma read_csv_silent (path : string) : fst (read path) = [].
Proof.
  unfold read, read_csv. destruct (fs path) as [[|c text]|]; reflexivity.
Qed.

(** X17.  With the five files read, the loader returns the five tables under
    their keys, in the order orders, order_items, products, customers,
    sellers, after a line of success and one line per table with its numbers
    of rows and columns. *)
Theorem load_datasets_all_present (base_path : string)
  (orders order_items products customers sellers : DataFrame) :
  read (base_path ++ "olist_orders_dataset.csv") = ([], Return orders) ->
  read (base_path ++ "olist_order_items_dataset.csv") = ([], Return order_items) ->
  read (base_path ++ "olist_products_dataset.csv") = ([], Return products) ->
  read (base_path ++ "olist_customers_dataset.csv") = ([], Return customers) ->
  read (base_path ++ "olist_sellers_dataset.csv") = ([], Return sellers) ->
  load base_path
  = (["Datasets carregados com sucesso!";
      shape_report "orders" orders;
      shape_report "order_items" order_items;
      shape_report "products" products;
      shape_report "customers" customers;
      shape_report "sellers" sellers],
     Return (Some [("orders", orders); ("order_items", order_items);
                   ("products", products); ("customers", customers);
                   ("sellers", sellers)])).
Proof.
  unfold load, load_datasets, read. intros -> -> -> -> ->. reflexivity.
Qed.

(** X18.  The handler is for absent files only: when reading one of the five
    files raises another exception, the files before it being read, that
    exception leaves the loader, which prints nothing. *)
Theorem load_datasets_other_exception (base_path : string)
  (before : list string) (file : string) (after : list string) (e : exn) :
  required_files = (before ++ file :: after)%list ->
  (forall g, In g before -> exists df, read (base_path ++ g) = ([], Return df)) ->
  read (base_path ++ file) = ([], Raise e) ->
  (forall path, e <> FileNotFoundError path) ->
  load base_path = ([], Raise e).
Proof.
  intros Hfiles Hbefore Hraise He.
  assert (Hhandler : forall (o : list string),
             try_except (A := option (list (string * DataFrame))) (o, Raise e)
               (fun e0 =>
                  match e0 with
                  | FileNotFoundError _ =>
                      Some (bind (print ("Erro ao carregar datasets: " ++ str_exn e0))
                              (fun _ => ret None))
                  | _ => None
                  end) = (o, Raise e)).
  { intros o. destruct e; try reflexivity. exfalso. eapply He. reflexivity. }
  unfold load, read in *. unfold load_datasets, required_files in *.
  destruct before as [|b1 [|b2 [|b3 [|b4 [|b5 before]]]]];
    cbn [app] in Hfiles; injection Hfiles as <-; subst;
    try (destruct before; discriminate).
  - rewrite Hraise. apply Hhandler.
  - destruct (Hbefore _ (or_introl eq_refl)) as [d1 ->].
    cbn [bind]. rewrite Hraise. apply Hhandler.
  - destruct (Hbefore _ (or_introl eq_refl)) as [d1 ->].
    destruct (Hbefore _ (or_intror (or_introl eq_refl))) as [d2 ->].
    cbn [bind]. rewrite Hraise. apply Hhandler.
  - destruct (Hbefore _ (or_introl eq_refl)) as [d1 ->].
    destruct (Hbefore _ (or_intror (or_introl eq_refl))) as [d2 ->].
    destruct (Hbefore _ (or_intror (or_intror (or_introl eq_refl)))) as [d3 ->].
    cbn [bind]. rewrite Hraise. apply Hhandler.
  - destruct (Hbefore _ (or_introl eq_refl)) as [d1 ->].
    destruct (Hbefore _ (or_intror (or_introl eq_refl))) as [d2 ->].
    destruct (Hbefore _ (or_intror (or_intror (or_introl eq_refl)))) as [d3 ->].
    destruct (Hbefore _ (or_intror (or_intror (or_intror (or_introl eq_refl)))))
      as [d4 ->].
    cbn [bind]. rewrite Hraise. apply Hhandler.
Qed.

(** A loader that returns tables returns the five of them, under their
    keys and in order: there is no partial result. *)
Lemma load_datasets_returns (base_path : string) (printed : list string)
  (datasets : list (string * DataFrame)) :
  load base_path = (printed, Return (Some datasets)) ->
  exists orders order_items products customers sellers,
    datasets = [("orders", orders); ("order_items", order_items);
                ("products", products); ("customers", customers);
                ("sellers", sellers)].
Proof.
  unfold load, load_datasets.
  destruct (read_csv fs parse_csv (base_path ++ "olist_orders_dataset.csv"))
    as [o1 [t1|e1]]; cbn [bind];
    [|destruct e1; cbn; intros H; discriminate].
  destruct (read_csv fs parse_csv (base_path ++ "olist_order_items_dataset.csv"))
    as [o2 [t2|e2]]; cbn [bind];
    [|destruct e2; cbn; intros H; discriminate].
  destruct (read_csv fs parse_csv (base_path ++ "olist_products_dataset.csv"))
    as [o3 [t3|e3]]; cbn [bind];
    [|destruct e3; cbn; intros H; discriminate].
  destruct (read_csv fs parse_csv (base_path ++ "olist_customers_dataset.csv"))
    as [o4 [t4|e4]]; cbn [bind];
    [|destruct e4; cbn; intros H; discriminate].
  destruct (read_csv fs parse_csv (base_path ++ "olist_sellers_dataset.csv"))
    as [o5 [t5|e5]]; cbn [bind];
    [|destruct e5; cbn; intros H; discriminate].
  cbn. intros [= _ <-]. exists t1, t2, t3, t4, t5. reflexivity.
Qed.

End LoaderPaths.

(** ** The pipeline *)

Lemma merge_silent (left right : DataFrame) (on : string) (h : how) :
  fst (merge left right on h) = [].
Proof.
  destruct (merge left right on h) as [printed [m|e]] eqn:H; cbn.
  - apply merge_returns in H. tauto.
  - apply merge_raises in H. exact H.
Qed.

Lemma optional_merge_silent (merged : DataFrame) (table : option DataFrame)
  (on : string) :
  fst (match table with
       | Some t => merge merged t on Left
       | None => ret merged
       end) = [].
Proof. destruct table; [apply merge_silent|reflexivity]. Qed.

Lemma bind_silent {A B} (m : Py A) (k : A -> Py B) :
  fst m = [] -> (forall a, fst (k a) = []) -> fst (bind m k) = [].
Proof.
  destruct m as [printed [a|e]]; cbn; intros -> Hk; [|reflexivity].
  specialize (Hk a). destruct (k a) as [printed' r]. exact Hk.
Qed.

Lemma merge_order_data_silent (orders order_items : DataFrame)
  (products customers : option DataFrame) :
  fst (merge_order_data orders order_items products customers) = [].
Proof.
  unfold merge_order_data.
  apply bind_silent; [apply merge_silent|]. intros m1.
  apply bind_silent; [apply optional_merge_silent|]. intros m2.
  apply bind_silent; [apply optional_merge_silent|]. intros m3.
  reflexivity.
Qed.

Lemma written_app (evs evs' : list event) :
  written (evs ++ evs') = (written evs ++ written evs')%list.
Proof. apply flat_map_app. Qed.

Lemma written_printed (lines : list string) : written (map Printed lines) = [].
Proof. induction lines; cbn; auto. Qed.

Lemma io_bind_returns {A B} (m : IO A) (k : A -> IO B)
  (events : list event) (b : B) :
  io_bind m k = (events, Return b) ->
  exists evs a evs',
    m = (evs, Return a) /\ k a = (evs', Return b) /\ events = (evs ++ evs')%list.
Proof.
  unfold io_bind. destruct m as [evs [a|e]]; [|discriminate].
  destruct (k a) as [evs' r] eqn:Hk. intros [= <- ->].
  exists evs, a, evs'. auto.
Qed.

Lemma lift_returns {A} (m : Py A) (events : list event) (a : A) :
  lift m = (events, Return a) ->
  m = (fst m, Return a) /\ events = map Printed (fst m).
Proof.
  unfold lift. destruct m as [printed r]; cbn. intros [= <- ->]. auto.
Qed.

Lemma dict_get_returns (d : datasets_dict) (key : string)
  (events : list event) (df : DataFrame) :
  dict_get d key = (events, Return df) ->
  dict_lookup key d = Some df /\ events = [].
Proof.
  unfold dict_get. destruct (dict_lookup key d); [|discriminate].
  intros [= <- <-]. auto.
Qed.

(** The loop over the five loaded tables fills each of them. *)
Lemma fill_each_loaded (o oi p c s : DataFrame) :
  let fill df := fill_with median (numeric_columns df) df in
  fill_each ["orders"; "order_items"; "products"; "customers"; "sellers"]
    [("orders", o); ("order_items", oi); ("products", p); ("customers", c);
     ("sellers", s)]
  = ([], Return [("orders", fill o); ("order_items", fill oi);
                 ("products", fill p); ("customers", fill c);
                 ("sellers", fill s)]).
Proof. reflexivity. Qed.

(** The loop of writes goes through the dictionary in order and stops at
    the first write that the disk refuses. *)
Lemma for_each_to_csv (write : disk_write) (d : datasets_dict) :
  exists done rest evs r,
    d = (done ++ rest)%list /\
    io_for_each d (fun kd => to_csv write (snd kd)
                               (processed_path ++ fst kd ++ "_processed.csv"))
    = (evs, r) /\
    evs = map wrote done /\
    match r with
    | Return _ => rest = []
    | Raise e =>
        exists kd rest',
          rest = kd :: rest' /\ write (processed_file (fst kd)) (snd kd) = Raise e
    end.
Proof.
  induction d as [|[k df] d IH].
  - exists [], [], [], (Return tt). repeat split.
  - destruct IH as (done & rest & evs & r & Hd & Hrun & Hev & Hres).
    cbn [io_for_each]. rewrite Hrun. unfold io_bind, to_csv. cbn [fst snd].
    change (processed_path ++ k ++ "_processed.csv") with (processed_file k).
    destruct (write (processed_file k) df) as [[]|e] eqn:Hw.
    + exists ((k, df) :: done), rest, (wrote (k, df) :: evs), r.
      split; [cbn; rewrite Hd; reflexivity|]. split; [reflexivity|].
      split; [cbn; rewrite Hev; reflexivity|exact Hres].
    + exists [], ((k, df) :: d), [], (Raise e).
      split; [reflexivity|]. split; [reflexivity|]. split; [reflexivity|].
      exists (k, df), d. split; [reflexivity|exact Hw].
Qed.

Lemma written_wrote (d : datasets_dict) :
  written (map wrote d) = map (fun kd => (processed_file (fst kd), snd kd)) d.
Proof.
  induction d as [|kd d IH]; [reflexivity|].
  cbn [map]. unfold written in *. cbn [flat_map app wrote]. f_equal. exact IH.
Qed.






Ltac bind_get H df :=
  let e := fresh "ev" in
  let e' := fresh "ev" in
  let Hg := fresh "Hget" in
  apply io_bind_returns in H as (e & df & e' & Hg & H & ->);
  apply dict_get_returns in Hg as [Hg ->];
  cbn [dict_lookup String.eqb Ascii.eqb Bool.eqb] in Hg;
  injection Hg as <-.

Section PipelineResults.

Variable parse_datetime : string -> option Z.
Variable fs : string -> option string.
Variable parse_csv : string -> outcome DataFrame.
Variable mkdir : disk_mkdir.
Variable write : disk_write.

Let load := load_datasets fs parse_csv.
Let prepare := prepare_data_for_analysis parse_datetime fs parse_csv mkdir write.

(** The saving step: the directory, the files in the order of the
    dictionary up to the first one refused, the closing line. *)
Lemma save_step (datasets : datasets_dict) :
  let save :=
    io_bind (makedirs mkdir processed_path) (fun _ =>
    io_bind (io_for_each datasets
               (fun kd => to_csv write (snd kd)
                            (processed_path ++ fst kd ++ "_processed.csv")))
      (fun _ => lift (print ("Dados processados salvos em " ++ processed_path)))) in
  (snd save = Return tt /\ written (fst save) = map file_of datasets)
  \/
  (exists e done rest,
      snd save = Raise e /\ datasets = (done ++ rest)%list /\
      written (fst save) = map file_of done).
Proof.
  cbv zeta. unfold makedirs.
  destruct (mkdir processed_path) as [[]|e].
  - destruct (for_each_to_csv write datasets)
      as (done & rest & evs & r & Hd & Hrun & Hev & Hres).
    unfold io_bind at 1. rewrite Hrun. destruct r as [[]|e].
    + left. subst rest evs. rewrite app_nil_r in Hd. subst done.
      split; [reflexivity|].
      cbn. rewrite written_app, written_wrote. cbn. apply app_nil_r.
    + right. exists e, done, rest. split; [reflexivity|]. split; [exact Hd|].
      subst evs. cbn. apply written_wrote.
  - right. exists e, [], datasets. repeat split.
Qed.

(** X19.  When the loader has no result, neither has the pipeline: it returns
    the "no result" value after the lines of the loader, and makes no
    directory and writes no file, asked to save or not. *)
Theorem prepare_data_for_analysis_without_datasets (base_path : string)
  (save_processed : bool) (printed : list string) :
  load base_path = (printed, Return None) ->
  prepare base_path save_processed = (map Printed printed, Return None).
Proof.
  unfold load, prepare, prepare_data_for_analysis, lift, io_bind.
  intros ->. cbn. rewrite app_nil_r. reflexivity.
Qed.

(** X20.  A pipeline that returns tables returns six of them, under the keys
    orders, order_items, products, customers, sellers and merged_data, in
    that order; the last one is the merge of the orders, order_items,
    products and customers tables it returns.  Asked to save, it has written
    exactly these six tables, in that order, each to the file of its key;
    not asked to, it has written nothing. *)
Theorem prepare_data_for_analysis_returns (base_path : string)
  (save_processed : bool) (events : list event) (datasets : datasets_dict) :
  prepare base_path save_processed = (events, Return (Some datasets)) ->
  exists orders order_items products customers sellers merged_data,
    datasets = [("orders", orders); ("order_items", order_items);
                ("products", products); ("customers", customers);
                ("sellers", sellers); ("merged_data", merged_data)] /\
    merge_order_data orders order_items (Some products) (Some customers)
    = ([], Return merged_data) /\
    written events
    = if save_processed
      then map (fun kd => (processed_file (fst kd), snd kd)) datasets
      else [].
Proof.
  unfold prepare, prepare_data_for_analysis. intros H.
  apply io_bind_returns in H as (ev0 & loaded & ev1 & Hload & H & ->).
  apply lift_returns in Hload as [Hload ->].
  destruct loaded as [[|entry ds0]|]; try discriminate.
  destruct (load_datasets_returns _ _ _ _ _ Hload)
    as (o & oi & p & c & s & Hds).
  rewrite Hds in H. clear Hds Hload.
  bind_get H o1. cbv beta zeta in H. cbn [dict_set String.eqb Ascii.eqb Bool.eqb] in H.
  bind_get H o2. cbv beta in H.
  apply io_bind_returns in H as (ev2 & o3 & ev3 & Hextract & H & ->).
  apply lift_returns in Hextract as [_ ->].
  cbv beta zeta in H. cbn [dict_set String.eqb Ascii.eqb Bool.eqb map fst] in H.
  rewrite fill_each_loaded in H. cbv zeta in H.
  apply io_bind_returns in H as (ev4 & ds4 & ev5 & Hfill & H & ->).
  injection Hfill as <- <-.
  bind_get H o5. cbv beta in H.
  apply io_bind_returns in H as (ev6 & o6 & ev7 & Hcalc & H & ->).
  apply lift_returns in Hcalc as [_ ->].
  cbv beta zeta in H. cbn [dict_set String.eqb Ascii.eqb Bool.eqb] in H.
  bind_get H o7. bind_get H oi7. bind_get H p7. bind_get H c7. cbv beta in H.
  apply io_bind_returns in H as (ev8 & m & ev9 & Hmerge & H & ->).
  apply lift_returns in Hmerge as [Hmerge ->].
  rewrite merge_order_data_silent in Hmerge.
  cbv beta zeta in H. cbn [dict_set String.eqb Ascii.eqb Bool.eqb] in H.
  apply io_bind_returns in H as (ev10 & [] & ev11 & Hsave & H & ->).
  injection H as <- <-.
  do 6 eexists. split; [reflexivity|]. split; [exact Hmerge|].
  rewrite !written_app, !written_printed.
  cbn [app].
  destruct save_processed.
  - match type of Hsave with
    | io_bind _ (fun _ => io_bind (io_for_each ?d _) _) = _ =>
        destruct (save_step d) as [[_ Hw] | (e & done & rest & Hr & _)];
          cbv zeta in *
    end.
    + rewrite Hsave in Hw. cbn [fst] in Hw. rewrite Hw, app_nil_r. reflexivity.
    + rewrite Hsave in Hr. discriminate.
  - injection Hsave as <-. reflexivity.
Qed.


End PipelineResults.

(** ** The merger: rows *)

Lemma extends_refl (r : list cell) : extends r r.
Proof. exists []. symmetry. apply app_nil_r. Qed.

Lemma extends_trans (r0 r1 r2 : list cell) :
  extends r0 r1 -> extends r1 r2 -> extends r0 r2.
Proof.
  intros [m1 ->] [m2 ->]. exists (m1 ++ m2)%list. symmetry. apply app_assoc.
Qed.

(** A join pairs left rows that exist. *)
Lemma join_positions_left_range (h : how) (lk rk : list cell) (i : nat) :
  In i (map fst (join_positions h lk rk)) -> (i < List.length lk)%nat.
Proof.
  unfold join_positions. intros Hin.
  apply in_map_iff in Hin as ([i' j] & <- & Hin).
  apply in_flat_map in Hin as ([i0 k] & Hic & Hin).
  apply in_combine_l, in_seq in Hic. cbn [fst snd] in Hin.
  assert (i' = i0); [|cbn; lia].
  destruct h, (matches k rk) as [|j0 js]; cbn in Hin;
    repeat match goal with
           | H : _ \/ _ |- _ => destruct H
           | H : (_, _) = (_, _) |- _ => injection H as <- <-
           | H : False |- _ => destruct H
           | H : In _ (map _ _) |- _ => apply in_map_iff in H as (? & [= <- <-] & ?)
           end; reflexivity.
Qed.

(** A left join pairs every left row. *)
Lemma join_positions_left_all (lk rk : list cell) (i : nat) :
  (i < List.length lk)%nat -> In i (map fst (join_positions Left lk rk)).
Proof.
  intros Hi. unfold join_positions.
  apply in_map_iff.
  assert (Hic : In (i, nth i lk (Obj None)) (combine (seq 0 (List.length lk)) lk)).
  { replace (i, nth i lk (Obj None))
      with (nth i (combine (seq 0 (List.length lk)) lk) (O, Obj None)).
    - apply nth_In. rewrite length_combine, length_seq. lia.
    - rewrite combine_nth by (rewrite length_seq; reflexivity).
      rewrite seq_nth by exact Hi. reflexivity. }
  destruct (matches (nth i lk (Obj None)) rk) as [|j js] eqn:Hm.
  - exists (i, None). split; [reflexivity|].
    apply in_flat_map. eexists. split; [exact Hic|]. cbn [fst snd]. rewrite Hm.
    left; reflexivity.
  - exists (i, Some j). split; [reflexivity|].
    apply in_flat_map. eexists. split; [exact Hic|]. cbn [fst snd]. rewrite Hm.
    left; reflexivity.
Qed.

(** Row [k] of a merge starts with the left row it was made from. *)
Lemma merge_row (left right : DataFrame) (on : string) (h : how)
  (printed : list string) (m : DataFrame) :
  merge left right on h = (printed, Return m) ->
  exists lk rk,
    getitem left on = Some lk /\ getitem right on = Some rk /\
    nrows m = List.length (join_positions h (cells lk) (cells rk)) /\
    forall k, (k < nrows m)%nat ->
              extends (row left (nth k (map fst (join_positions h (cells lk) (cells rk))) O))
                      (row m k).
Proof.
  unfold merge.
  destruct (getitem left on) as [lk|]; [|destruct (getitem right on); discriminate].
  destruct (getitem right on) as [rk|]; [|discriminate].
  destruct (compatible_keys lk rk); [|discriminate].
  intros [= <- <-]. exists lk, rk. split; [reflexivity|]. split; [reflexivity|].
  split; [reflexivity|]. cbn [nrows]. intros k Hk.
  unfold row at 2; cbn [columns]. rewrite map_app. eexists. f_equal.
  unfold row. rewrite map_map. apply map_ext. intros c; cbn [snd].
  apply cell_at_take. rewrite length_map. exact Hk.
Qed.

Lemma in_rows (df : DataFrame) (i : nat) :
  (i < nrows df)%nat -> In (row df i) (rows df).
Proof. intros Hi. unfold rows. apply in_map, in_seq. lia. Qed.

Lemma rows_in (df : DataFrame) (r : list cell) :
  In r (rows df) -> exists i, (i < nrows df)%nat /\ r = row df i.
Proof.
  unfold rows. intros H. apply in_map_iff in H as (i & <- & Hi).
  apply in_seq in Hi. exists i. split; [lia|reflexivity].
Qed.

(** One optional left join: every row of the output is a row of the input
    with more cells, and every row of the input is there. *)
Lemma optional_left_join_rows (merged : DataFrame) (table : option DataFrame)
  (on : string) (printed : list string) (m : DataFrame) :
  well_formed merged ->
  match table with
  | Some t => merge merged t on Left
  | None => ret merged
  end = (printed, Return m) ->
  (forall r, In r (rows m) -> exists r0, In r0 (rows merged) /\ extends r0 r) /\
  (forall r0, In r0 (rows merged) -> exists r, In r (rows m) /\ extends r0 r).
Proof.
  intros Hwf. destruct table as [t|].
  - intros H. apply merge_row in H as (lk & rk & Hl & Hr & Hn & Hrow).
    pose proof (well_formed_getitem _ _ _ Hwf Hl) as Hlen. unfold len in Hlen.
    split.
    + intros r Hin. apply rows_in in Hin as (k & Hk & ->).
      eexists. split; [|apply Hrow, Hk].
      apply in_rows. rewrite <- Hlen.
      apply (join_positions_left_range Left _ (cells rk)).
      apply nth_In. rewrite length_map, <- Hn. exact Hk.
    + intros r0 Hin. apply rows_in in Hin as (i & Hi & ->).
      rewrite <- Hlen in Hi.
      apply (join_positions_left_all _ (cells rk)) in Hi.
      apply (In_nth _ _ O) in Hi as (k & Hk & Hnth).
      rewrite length_map, <- Hn in Hk.
      exists (row m k). split; [apply in_rows, Hk|].
      rewrite <- Hnth. apply Hrow, Hk.
  - intros [= _ <-]. split; intros r Hin; exists r; split; auto using extends_refl.
Qed.

(** X16.  The left joins of the merger neither drop nor alter a row of the inner
    join of orders and order_items: every row of the merged table is a row of
    the inner join followed by the cells of the product and customer
    columns, and every row of the inner join is found so in the merged
    table. *)
Theorem merge_order_data_extends_rows
  (orders order_items : DataFrame) (products customers : option DataFrame)
  (joined merged : DataFrame) :
  merge orders order_items "order_id" Inner = ([], Return joined) ->
  merge_order_data orders order_items products customers = ([], Return merged) ->
  (forall r, In r (rows merged) -> exists r0, In r0 (rows joined) /\ extends r0 r) /\
  (forall r0, In r0 (rows joined) -> exists r, In r (rows merged) /\ extends r0 r).
Proof.
  intros Hjoin H. unfold merge_order_data in H. rewrite Hjoin in H.
  pose proof (merge_returns _ _ _ _ _ _ Hjoin) as (_ & Hwf1 & _).
  unfold bind at 1 in H.
  destruct (match products with
            | Some p => merge joined p "product_id" Left
            | None => ret joined
            end) as [out2 [m2|e]] eqn:H2; [|destruct out2; discriminate].
  pose proof (optional_left_join _ _ _ _ _ Hwf1 H2) as (_ & Hwf2 & _).
  destruct (optional_left_join_rows _ _ _ _ _ Hwf1 H2) as [Hsub2 Hall2].
  unfold bind at 1 in H.
  destruct (match customers with
            | Some c => merge m2 c "customer_id" Left
            | None => ret m2
            end) as [out3 [m3|e]] eqn:H3.
  - destruct (optional_left_join_rows _ _ _ _ _ Hwf2 H3) as [Hsub3 Hall3].
    cbn in H. assert (m3 = merged) as -> by congruence.
    split.
    + intros r Hr. destruct (Hsub3 r Hr) as (r1 & Hr1 & He1).
      destruct (Hsub2 r1 Hr1) as (r0 & Hr0 & He0).
      exists r0. split; [exact Hr0|]. eapply extends_trans; eassumption.
    + intros r0 Hr0. destruct (Hall2 r0 Hr0) as (r1 & Hr1 & He1).
      destruct (Hall3 r1 Hr1) as (r & Hr & He).
      exists r. split; [exact Hr|]. eapply extends_trans; eassumption.
  - cbn in H. destruct (out2 ++ out3)%list; discriminate.
Qed.

Lemma merge_order_data_extends_rows_witness :
  exists joined merged,
    merge one_order two_items "order_id" Inner = ([], Return joined) /\
    merge_order_data one_order two_items (Some products_listed_twice) None
    = ([], Return merged) /\
    (forall r, In r (rows merged) -> exists r0, In r0 (rows joined) /\ extends r0 r) /\
    (forall r0, In r0 (rows joined) -> exists r, In r (rows merged) /\ extends r0 r).
Proof.
  destruct (merge one_order two_items "order_id" Inner) as [p1 [joined|e1]] eqn:H1;
    [|vm_compute in H1; discriminate].
  destruct (merge_order_data one_order two_items (Some products_listed_twice) None)
    as [p2 [merged|e2]] eqn:H2; [|vm_compute in H2; discriminate].
  assert (p1 = []) as -> by (vm_compute in H1; congruence).
  assert (p2 = []) as -> by (vm_compute in H2; congruence).
  exists joined, merged. split; [reflexivity|]. split; [reflexivity|].
  apply (merge_order_data_extends_rows one_order two_items
           (Some products_listed_twice) None joined merged H1 H2).
Defined.

(** ** The properties above on the sample shop *)

Lemma calculate_delivery_time_after_convert_absent_witness :
  exists c,
    In c date_cols /\ contains orders_without_delivered c = false /\
    calculate_delivery_time parse_iso
      (convert_dates parse_iso orders_without_delivered pipeline_date_columns)
    = ([absent_column_report c],
       Return (convert_dates parse_iso orders_without_delivered
                 pipeline_date_columns)).
Proof.
  apply (calculate_delivery_time_after_convert_absent parse_iso
           orders_without_delivered pipeline_date_columns).
  - intros c [<- | [<- | [<- | []]]]; cbn; auto 10.
  - exists "order_delivered_customer_date". split; [cbn; auto|reflexivity].
Defined.

Lemma load_datasets_all_present_witness :
  load_datasets shop_disk shop_reader "raw/"
  = (["Datasets carregados com sucesso!";
      shape_report "orders" raw_orders;
      shape_report "order_items" two_items;
      shape_report "products" products_listed_once;
      shape_report "customers" two_customers;
      shape_report "sellers" one_seller],
     Return (Some [("orders", raw_orders); ("order_items", two_items);
                   ("products", products_listed_once);
                   ("customers", two_customers); ("sellers", one_seller)])).
Proof.
  apply (load_datasets_all_present shop_disk shop_reader "raw/");
    vm_compute; reflexivity.
Defined.

Lemma load_datasets_other_exception_witness :
  load_datasets shop_disk_empty_items shop_reader "raw/" = ([], Raise EmptyDataError).
Proof.
  apply (load_datasets_other_exception shop_disk_empty_items shop_reader "raw/"
           ["olist_orders_dataset.csv"] "olist_order_items_dataset.csv"
           ["olist_products_dataset.csv"; "olist_customers_dataset.csv";
            "olist_sellers_dataset.csv"]).
  - reflexivity.
  - intros g [<- | []]. eexists. vm_compute. reflexivity.
  - vm_compute. reflexivity.
  - intros path. discriminate.
Defined.

Lemma prepare_data_for_analysis_without_datasets_witness :
  prepare_data_for_analysis parse_iso disk_without_products header_reader
    disk_ready disk_accepts "raw/" true
  = (map Printed
       ["Erro ao carregar datasets: "
        ++ str_exn (FileNotFoundError ("raw/" ++ "olist_products_dataset.csv"))],
     Return None).
Proof.
  apply (prepare_data_for_analysis_without_datasets parse_iso
           disk_without_products header_reader disk_ready disk_accepts
           "raw/" true).
  vm_compute. reflexivity.
Defined.

Lemma prepare_data_for_analysis_returns_witness :
  exists events datasets,
    prepare_data_for_analysis parse_iso shop_disk shop_reader
      disk_ready disk_accepts "raw/" true
    = (events, Return (Some datasets)) /\
    map fst datasets
    = ["orders"; "order_items"; "products"; "customers"; "sellers"; "merged_data"] /\
    map fst (written events) = map processed_file (map fst datasets) /\
    map snd (written events) = map snd datasets.
Proof.
  destruct (prepare_data_for_analysis parse_iso shop_disk shop_reader
              disk_ready disk_accepts "raw/" true)
    as [events [[datasets|]|e]] eqn:H;
    try (vm_compute in H; discriminate).
  exists events, datasets. split; [reflexivity|].
  destruct (prepare_data_for_analysis_returns parse_iso shop_disk shop_reader
              disk_ready disk_accepts "raw/" true events datasets H)
    as (o & oi & p & c & s & m & -> & _ & ->).
  repeat split.
Defined.


(** ** Strategies applied twice *)

Lemma take_rows_well_formed (idx : list nat) (df : DataFrame) :
  well_formed (take_rows idx df).
Proof.
  unfold well_formed, take_rows; cbn [columns nrows].
  apply Forall_map, Forall_forall. intros c _; cbn. apply len_take.
Qed.

Lemma fillna_zero_frame_fixed (df : DataFrame) :
  complete df -> fillna_zero_frame df = df.
Proof.
  intros Hc. destruct df as [n cols]. unfold fillna_zero_frame; cbn [nrows columns].
  f_equal. rewrite <- (map_id cols) at 2. apply map_ext_in.
  intros [c v] Hin. cbn. f_equal.
  apply fillna_zero_no_missing_fixed, (Hc c v Hin).
Qed.

(** X10.  [drop] and [fill_zero] leave nothing to do: applied to its own output,
    either strategy returns that output, for every table. *)
Theorem drop_and_fill_zero_idempotent (df out : DataFrame) (strategy : string) :
  strategy = "drop" \/ strategy = "fill_zero" ->
  handle_missing_values df strategy = ([], Return out) ->
  handle_missing_values out strategy = ([], Return out).
Proof.
  intros [-> | ->]; unfold handle_missing_values; cbn [String.eqb Ascii.eqb Bool.eqb];
    intros [= <-]; unfold ret; do 2 f_equal.
  - apply dropna_complete.
    + apply take_rows_well_formed.
    + intros c v Hin. eapply dropna_no_missing, Hin.
  - apply fillna_zero_frame_fixed.
    intros c v Hin. unfold fillna_zero_frame in Hin; cbn [columns] in Hin.
    apply in_map_iff in Hin as ([c0 v0] & [= <- <-] & _).
    apply fillna_zero_no_missing.
Qed.

Lemma drop_and_fill_zero_idempotent_witness :
  exists out,
    handle_missing_values orders_sample "fill_zero" = ([], Return out) /\
    handle_missing_values out "fill_zero" = ([], Return out).
Proof.
  eexists. split; [reflexivity|].
  apply (drop_and_fill_zero_idempotent orders_sample _ "fill_zero").
  - right. reflexivity.
  - reflexivity.
Defined.

(** ** The delivery-time calculator: what it leaves alone *)

Lemma bind_returns {A B} (m : Py A) (k : A -> Py B) (printed : list string) (b : B) :
  bind m k = (printed, Return b) ->
  exists p a p', m = (p, Return a) /\ k a = (p', Return b) /\ printed = (p ++ p')%list.
Proof.
  unfold bind. destruct m as [p [a|e]]; [|discriminate].
  destruct (k a) as [p' r] eqn:Hk. intros [= <- ->].
  exists p, a, p'. auto.
Qed.

Section DeliveryTimeColumns.

Variable parse_datetime : string -> option Z.

(** X15.  On a table it returned without a report, the calculator has kept the
    row count, has left each of the three date columns as [to_datetime] of
    itself, and has touched no column other than these and its four
    results. *)
Theorem calculate_delivery_time_keeps_columns (orders df : DataFrame) :
  calculate_delivery_time parse_datetime orders = ([], Return df) ->
  nrows df = nrows orders /\
  (forall c, In c date_cols ->
             exists v, getitem orders c = Some v /\
                       getitem df c = Some (to_datetime parse_datetime v)) /\
  (forall c, ~ In c date_cols -> ~ In c derived_columns ->
             getitem df c = getitem orders c).
Proof.
  intros H.
  assert (Hpresent : forall c, In c date_cols -> exists v, getitem orders c = Some v).
  { intros c Hc. destruct (getitem orders c) as [v|] eqn:Hv; [eauto|]. exfalso.
    unfold calculate_delivery_time in H.
    match type of H with
    | check_date_cols _ _ _ ?rest = _ =>
        destruct (check_date_cols_absent parse_datetime rest date_cols orders)
          as (c0 & df0 & _ & Hrun & _)
    end; [exists c; auto|].
    rewrite Hrun in H. discriminate. }
  unfold calculate_delivery_time in H.
  rewrite check_date_cols_present in H by exact Hpresent.
  set (d := convert_dates parse_datetime orders date_cols) in *.
  apply bind_returns in H as (p1 & td1 & p1' & _ & H & _).
  apply bind_returns in H as (p2 & td2 & p2' & _ & H & _).
  apply bind_returns in H as (p3 & difference & p3' & _ & H & _).
  apply bind_returns in H as (p4 & on_time & p4' & _ & H & _).
  injection H as _ Hdf.
  assert (Hother : forall c, ~ In c derived_columns -> getitem df c = getitem d c).
  { intros c Hc. rewrite <- Hdf, !getitem_setitem.
    repeat match goal with
           | |- context [String.eqb c ?s] =>
               replace (String.eqb c s) with false
                 by (symmetry; apply String.eqb_neq; intros ->; apply Hc; cbn; auto)
           end.
    reflexivity. }
  split; [|split].
  - rewrite <- Hdf. cbn [nrows setitem]. subst d.
    apply (convert_dates_shape parse_datetime orders date_cols).
  - intros c Hc. destruct (Hpresent c Hc) as [v Hv]. exists v. split; [exact Hv|].
    rewrite Hother.
    + subst d. rewrite convert_dates_getitem, Hv.
      replace (existsb (String.eqb c) date_cols) with true; [reflexivity|].
      symmetry. apply existsb_exists. exists c. split; [exact Hc|apply String.eqb_refl].
    + destruct Hc as [<- | [<- | [<- | []]]]; cbn;
        intros [Hd | [Hd | [Hd | [Hd | []]]]]; discriminate.
  - intros c Hdate Hderived. rewrite (Hother c Hderived).
    subst d. rewrite convert_dates_getitem.
    replace (existsb (String.eqb c) date_cols) with false; [reflexivity|].
    symmetry. apply not_true_is_false. intros Hex.
    apply existsb_exists in Hex as (c' & Hin & Heq).
    apply String.eqb_eq in Heq. subst c'. exact (Hdate Hin).
Qed.

End DeliveryTimeColumns.

Lemma calculate_delivery_time_keeps_columns_witness :
  nrows orders_sample_timed = nrows orders_sample /\
  (forall c, In c date_cols ->
             exists v, getitem orders_sample c = Some v /\
                       getitem orders_sample_timed c = Some (to_datetime parse_iso v)) /\
  (forall c, ~ In c date_cols -> ~ In c derived_columns ->
             getitem orders_sample_timed c = getitem orders_sample c).
Proof.
  apply (calculate_delivery_time_keeps_columns parse_iso orders_sample).
  vm_compute. reflexivity.
Defined.
